(** * CCS200.py: the Spectrometer wrapper around the TLCCS vendor driver

    A shallow embedding of [src/CCS200.py].  The module is a thin ctypes
    binding: every method evaluates a few ctypes constructors and performs
    calls into the outside world (the operating system and the vendor DLL)
    inside a [try ... except Exception] block.

    The outside world is a parameter of the development ([Outside]): the
    theorems quantify over every behaviour of [os.chdir], of
    [cdll.LoadLibrary] and of the exported functions of the driver,
    exceptions of any class included: an [except Exception] clause catches
    the instances of [Exception] only, and an exception raised inside it
    keeps the one it handles as its [__context__]. *)

From Stdlib Require Import ZArith String Ascii List Lia.
From Stdlib Require Import Floats.SpecFloat.
From stdpp Require Import base list strings.

Local Open Scope string_scope.
Local Open Scope list_scope.

(** ** Values *)

(** A C [double] / Python [float]: an IEEE-754 binary64 number. *)
Definition double : Type := spec_float.

Definition prec64 : Z := 53.
Definition emax64 : Z := 1024.

(** The double [+0.0], the initial content of a ctypes array element. *)
Definition dzero : double := S754_zero false.

(** Addresses of ctypes objects. *)
Abbreviation addr := nat (only parsing).

(** A numpy array created by [np.ctypeslib.as_array]: a float64 view that
    shares the memory of the ctypes array at [nd_base]. *)
Record ndarray : Type := Ndarray { nd_base : addr; nd_shape : list nat }.

(** The Python objects that cross the public interface. *)
Inductive pyvalue : Type :=
| PyNone
| PyInt (z : Z)
| PyFloat (d : double)
| PyStr (s : string)
| PyTuple2 (fst_item snd_item : ndarray).

Definition type_name (v : pyvalue) : string :=
  match v with
  | PyNone => "NoneType"
  | PyInt _ => "int"
  | PyFloat _ => "float"
  | PyStr _ => "str"
  | PyTuple2 _ _ => "tuple"
  end.

(** ** Exceptions *)

(** An exception instance: its class, the base classes of that class up
    to [BaseException], the text [str(e)] yields, and [e.__context__], the
    exception that was being handled when [e] was raised. *)
#[warnings="-register-all"] Inductive exn : Type := Exn {
  exn_class : string;
  exn_bases : list string;
  exn_str : string;
  exn_context : option exn
}.

Definition str (e : exn) : string := exn_str e.

(** [isinstance(e, cls)] *)
Definition isinstance (e : exn) (cls : string) : bool :=
  bool_decide (cls ∈ exn_class e :: exn_bases e).

(** [e] once it was raised while [handled] was being handled: Python sets
    its [__context__]. *)
Definition with_context (e handled : exn) : exn :=
  Exn (exn_class e) (exn_bases e) (exn_str e) (Some handled).

(** A new instance of a built-in class, as [Class(msg)] creates it. *)
Definition RuntimeError (msg : string) : exn :=
  Exn "RuntimeError" ["Exception"; "BaseException"] msg None.
Definition TypeError (msg : string) : exn :=
  Exn "TypeError" ["Exception"; "BaseException"] msg None.
Definition OverflowError (msg : string) : exn :=
  Exn "OverflowError" ["ArithmeticError"; "Exception"; "BaseException"] msg None.
Definition AttributeError (msg : string) : exn :=
  Exn "AttributeError" ["Exception"; "BaseException"] msg None.
Definition OSError (msg : string) : exn :=
  Exn "OSError" ["Exception"; "BaseException"] msg None.
Definition FileNotFoundError (msg : string) : exn :=
  Exn "FileNotFoundError" ["OSError"; "Exception"; "BaseException"] msg None.
Definition KeyboardInterrupt (msg : string) : exn :=
  Exn "KeyboardInterrupt" ["BaseException"] msg None.

Inductive outcome (A : Type) : Type :=
| Returns (a : A)
| Raises (e : exn).
Arguments Returns {A} a.
Arguments Raises {A} e.

Definition raised {A : Type} (o : outcome A) : bool :=
  match o with Returns _ => false | Raises _ => true end.

(** ** ctypes objects and the memory they live in *)

Inductive cobj : Type :=
| C_int (v : Z)
| C_double_array (xs : list double).

Abbreviation heap := (list cobj) (only parsing).

(** A C [int] is 32 bits wide, two's complement. *)
Definition wrap_int32 (z : Z) : Z :=
  ((z + 2147483648) mod 4294967296 - 2147483648)%Z.

(** [c_int(z)] *)
Definition c_int (z : Z) : cobj := C_int (wrap_int32 z).

(** [(c_double * n)()]: zero-initialised. *)
Definition c_double_array (n : nat) : cobj := C_double_array (replicate n dzero).

(** The length of the two scan buffers. *)
Definition NUM_PIXELS : nat := 3648.

(** [c_double(v)]: ctypes converts with PyFloat_AsDouble.  An [int] is
    rounded to the nearest double (ties to even) and is refused when it
    is out of range. *)
Definition long_as_double (z : Z) : outcome double :=
  match binary_normalize prec64 emax64 z 0 false with
  | S754_infinity _ => Raises (OverflowError "int too large to convert to float")
  | d => Returns d
  end.

Definition c_double (v : pyvalue) : outcome double :=
  match v with
  | PyFloat d => Returns d
  | PyInt z => long_as_double z
  | _ => Raises (TypeError ("must be real number, not " +:+ type_name v))
  end.

(** ** The foreign-call boundary *)

(** A loaded library ([ctypes.CDLL]). *)
Record CDLL : Type := Cdll { dll_name : string }.

(** An actual argument of a foreign call, with the C type ctypes gives it. *)
Inductive carg : Type :=
| A_int (z : Z)              (* a Python int, passed as C int *)
| A_c_int (z : Z)            (* a c_int instance, passed by value *)
| A_c_double (d : double)    (* a c_double instance, passed by value *)
| A_bytes (s : string)       (* a bytes object, passed as char* *)
| A_byref (p : addr)         (* byref(obj): pointer to the object at p *)
| A_c_void_p (p : option Z). (* c_void_p(None) is the NULL pointer *)

(** What a foreign call does: it returns a C [int] (ctypes' default
    restype) or raises, and it has stored data through the pointers it
    received. *)
Record ffi_effect : Type := FfiEffect {
  result : outcome Z;
  stores : list (addr * cobj)
}.

(** One interaction with the outside world, with what came back. *)
Inductive event : Type :=
| Ev_chdir (path : string) (r : outcome unit)
| Ev_LoadLibrary (name : string) (r : outcome CDLL)
| Ev_call (sym : string) (args : list carg) (fx : ffi_effect).

(** The outside world: the file system, the loader, the driver and the
    device behind it, with an opaque state [D].  [sys_chdir path] tells
    whether the directory can be entered; [sys_LoadLibrary cwd name]
    whether the loader finds the library from the working directory;
    [dll_call l sym args h] is the lookup of [sym] in the library followed
    by the call, on the memory [h]: a symbol the library does not export
    (AttributeError) and a failure of the call itself are both its
    exception. *)
Record Outside (D : Type) : Type := {
  sys_chdir : string -> D -> outcome unit * D;
  sys_LoadLibrary : string -> string -> D -> outcome unit * D;
  dll_call : CDLL -> string -> list carg -> heap -> D -> ffi_effect * D
}.
Arguments sys_chdir {D} _ _ _.
Arguments sys_LoadLibrary {D} _ _ _ _.
Arguments dll_call {D} _ _ _ _ _ _.

(** The pointers a call passes by reference. *)
Definition byref_targets (args : list carg) : list addr :=
  flat_map (fun a => match a with A_byref p => [p] | _ => [] end) args.

(** A foreign function writes into the object it was given; it cannot
    change the object's type or size. *)
Definition overwrite (old new : list double) : list double :=
  take (length old) (new ++ drop (length new) old).

Definition store_cobj (old new : cobj) : cobj :=
  match old, new with
  | C_int _, C_int v => C_int (wrap_int32 v)
  | C_double_array xs, C_double_array ys => C_double_array (overwrite xs ys)
  | _, _ => old
  end.

(** Stores through pointers the call did not receive are not modelled
    (they are undefined behaviour on the C side). *)
Definition apply_store (targets : list addr) (h : heap) (st : addr * cobj) : heap :=
  if bool_decide (st.1 ∈ targets) then
    match h !! st.1 with
    | Some old => <[st.1 := store_cobj old st.2]> h
    | None => h
    end
  else h.

Definition apply_stores (targets : list addr) (sts : list (addr * cobj)) (h : heap) : heap :=
  fold_left (apply_store targets) sts h.

(** ** Process and object state *)

Record process (D : Type) : Type := Process {
  cwd : string;
  mem : heap;
  trace : list event;
  outside : D
}.
Arguments Process {D} _ _ _ _.
Arguments cwd {D} _.
Arguments mem {D} _.
Arguments trace {D} _.
Arguments outside {D} _.

(** The attributes of a [Spectrometer] instance. *)
Record Spectrometer : Type := Self {
  lib : option CDLL;
  ccs_handle : addr
}.

(** The initial content of the handle, used when the attribute does not
    point to a [c_int] (never the case for a constructed instance, see
    [wf_self]). *)
Definition c_int_value (h : heap) (a : addr) : Z :=
  match h !! a with
  | Some (C_int v) => v
  | _ => 0%Z
  end.

(** The elements seen through a numpy view: the current content of the
    ctypes array it shares its memory with. *)
Definition nd_contents (h : heap) (v : ndarray) : list double :=
  match h !! nd_base v with
  | Some (C_double_array xs) => xs
  | _ => []
  end.

Declare Scope py_scope.
Delimit Scope py_scope with py.

(** ** The methods of [Spectrometer] *)

Section Wrapper.
Context {D : Type} (E : Outside D).

(** Python code running against an instance and the process: state
    passing with exceptions; an exception keeps the effects so far. *)
Definition M (A : Type) : Type :=
  Spectrometer -> process D -> outcome A * Spectrometer * process D.

Definition ret {A : Type} (a : A) : M A :=
  fun s p => (Returns a, s, p).

Definition raise {A : Type} (e : exn) : M A :=
  fun s p => (Raises e, s, p).

Definition bind {A B : Type} (m : M A) (k : A -> M B) : M B :=
  fun s p =>
    match m s p with
    | (Returns a, s', p') => k a s' p'
    | (Raises e, s', p') => (Raises e, s', p')
    end.

(** [try: m  except Exception as e: h e].  The clause catches the
    instances of [Exception]; any other exception goes on to the caller.
    An exception the handler raises has the caught one as its
    [__context__]. *)
Definition try_except {A : Type} (m : M A) (h : exn -> M A) : M A :=
  fun s p =>
    match m s p with
    | (Returns a, s', p') => (Returns a, s', p')
    | (Raises e, s', p') =>
        if isinstance e "Exception" then
          match h e s' p' with
          | (Raises x, s'', p'') => (Raises (with_context x e), s'', p'')
          | (Returns a, s'', p'') => (Returns a, s'', p'')
          end
        else (Raises e, s', p')
    end.

Definition lift {A : Type} (o : outcome A) : M A :=
  fun s p => (o, s, p).

Notation "x <- m ;; k" := (bind m (fun x => k))
  (at level 100, m at next level, right associativity) : py_scope.
Notation "m ;; k" := (bind m (fun _ => k))
  (at level 100, right associativity) : py_scope.
Local Open Scope py_scope.

(** [self.lib = v] *)
Definition set_lib (v : option CDLL) : M unit :=
  fun s p => (Returns tt, Self v (ccs_handle s), p).

(** [self.ccs_handle = v] *)
Definition set_ccs_handle (v : addr) : M unit :=
  fun s p => (Returns tt, Self (lib s) v, p).

(** The value of [self.ccs_handle], as a call receives it by value. *)
Definition handle_by_value : M carg :=
  fun s p => (Returns (A_c_int (c_int_value (mem p) (ccs_handle s))), s, p).

(** [byref(self.ccs_handle)] *)
Definition handle_by_ref : M carg :=
  fun s p => (Returns (A_byref (ccs_handle s)), s, p).

(** Creating a ctypes object: a fresh cell of the memory. *)
Definition new_cobj (o : cobj) : M addr :=
  fun s p =>
    (Returns (length (mem p)), s,
     Process (cwd p) (mem p ++ [o]) (trace p) (outside p)).

(** [os.chdir(path)] *)
Definition os_chdir (path : string) : M unit :=
  fun s p =>
    let '(r, d) := sys_chdir E path (outside p) in
    (r, s,
     Process (match r with Returns _ => path | Raises _ => cwd p end)
             (mem p) (trace p ++ [Ev_chdir path r]) d).

(** [cdll.LoadLibrary(name)] *)
Definition cdll_LoadLibrary (name : string) : M CDLL :=
  fun s p =>
    let '(r, d) := sys_LoadLibrary E (cwd p) name (outside p) in
    let r' := match r with
              | Returns _ => Returns (Cdll name)
              | Raises e => Raises e
              end in
    (r', s, Process (cwd p) (mem p) (trace p ++ [Ev_LoadLibrary name r']) d).

(** [self.lib.sym(args)]: the attribute lookup on [self.lib], then the
    call.  The result is the function's C [int]. *)
Definition foreign (sym : string) (args : list carg) : M Z :=
  fun s p =>
    match lib s with
    | None =>
        (Raises (AttributeError
                   ("'NoneType' object has no attribute '" +:+ sym +:+ "'")),
         s, p)
    | Some l =>
        let '(fx, d) := dll_call E l sym args (mem p) (outside p) in
        (result fx, s,
         Process (cwd p)
                 (apply_stores (byref_targets args) (stores fx) (mem p))
                 (trace p ++ [Ev_call sym args fx]) d)
    end.

(** [np.ctypeslib.as_array(obj)]: a view, no copy. *)
Definition as_array (a : addr) : M ndarray :=
  fun s p =>
    (Returns (Ndarray a (match mem p !! a with
                         | Some (C_double_array xs) => [length xs]
                         | _ => []
                         end)), s, p).

Definition VISA_BIN : string :=
  "C:\Program Files\IVI Foundation\VISA\Win64\Bin".

Definition RESOURCE : string := "USB0::0x1313::0x8089::M00912624::RAW".

Definition _load_library : M pyvalue :=
  try_except
    (os_chdir VISA_BIN ;;
     l <- cdll_LoadLibrary "TLCCS_64.dll" ;;
     set_lib (Some l) ;;
     ret PyNone)
    (fun e => raise (RuntimeError ("Failed to load spectrometer DLL: " +:+ str e))).

Definition _initialize_device : M pyvalue :=
  try_except
    (h <- handle_by_ref ;;
     foreign "tlccs_init" [A_bytes RESOURCE; A_int 1; A_int 1; h] ;;
     ret PyNone)
    (fun e => raise (RuntimeError ("Failed to initialize spectrometer: " +:+ str e))).

Definition __init__ : M pyvalue :=
  set_lib None ;;
  h <- new_cobj (c_int 0) ;;
  set_ccs_handle h ;;
  _load_library ;;
  _initialize_device ;;
  ret PyNone.

Definition set_integration_time (time_in_seconds : pyvalue) : M pyvalue :=
  try_except
    (integration_time <- lift (c_double time_in_seconds) ;;
     h <- handle_by_value ;;
     foreign "tlccs_setIntegrationTime" [h; A_c_double integration_time] ;;
     ret PyNone)
    (fun e => raise (RuntimeError ("Failed to set integration time: " +:+ str e))).

Definition start_scan : M pyvalue :=
  try_except
    (h <- handle_by_value ;;
     foreign "tlccs_startScan" [h] ;;
     ret PyNone)
    (fun e => raise (RuntimeError ("Failed to start scan: " +:+ str e))).

Definition get_scan_data : M pyvalue :=
  try_except
    (wavelengths <- new_cobj (c_double_array NUM_PIXELS) ;;
     h <- handle_by_value ;;
     foreign "tlccs_getWavelengthData"
       [h; A_int 0; A_byref wavelengths; A_c_void_p None; A_c_void_p None] ;;
     data_array <- new_cobj (c_double_array NUM_PIXELS) ;;
     h' <- handle_by_value ;;
     foreign "tlccs_getScanData" [h'; A_byref data_array] ;;
     wavelengths_np <- as_array wavelengths ;;
     data_array_np <- as_array data_array ;;
     ret (PyTuple2 wavelengths_np data_array_np))
    (fun e => raise (RuntimeError ("Failed to retrieve scan data: " +:+ str e))).

Definition close : M pyvalue :=
  try_except
    (h <- handle_by_value ;;
     foreign "tlccs_close" [h] ;;
     ret PyNone)
    (fun e => raise (RuntimeError ("Failed to close spectrometer: " +:+ str e))).

(** [Spectrometer()]: a new instance, handed out when [__init__] returns. *)
Definition blank : Spectrometer := Self None 0.

Definition construct (p : process D) : outcome Spectrometer * process D :=
  match __init__ blank p with
  | (Returns _, s, p') => (Returns s, p')
  | (Raises e, _, p') => (Raises e, p')
  end.

(** The public operations on a constructed instance. *)
Inductive operation : Type :=
| Op_set_integration_time (time_in_seconds : pyvalue)
| Op_start_scan
| Op_get_scan_data
| Op_close.

Definition run_op (o : operation) : M pyvalue :=
  match o with
  | Op_set_integration_time t => set_integration_time t
  | Op_start_scan => start_scan
  | Op_get_scan_data => get_scan_data
  | Op_close => close
  end.

(** A caller that performs the operations one after the other and goes
    on after a failure. *)
Fixpoint run_ops (ops : list operation) (s : Spectrometer) (p : process D)
  : list (outcome pyvalue) * Spectrometer * process D :=
  match ops with
  | [] => ([], s, p)
  | o :: rest =>
      let '(r, s', p') := run_op o s p in
      let '(rs, s'', p'') := run_ops rest s' p' in
      (r :: rs, s'', p'')
  end.

(** The life of one instance: construction, then operations. *)
Definition session (ops : list operation) (p : process D) : process D :=
  match construct p with
  | (Returns s, p') => (run_ops ops s p').2
  | (Raises _, p') => p'
  end.

End Wrapper.

Arguments operation : clear implicits.

(** ** Observations on a run *)

(** The interactions performed between two states of the process. *)
Definition new_events {D : Type} (p p' : process D) : list event :=
  drop (length (trace p)) (trace p').

(** The exception of an interaction that failed. *)
Definition failure (ev : event) : option exn :=
  match ev with
  | Ev_chdir _ (Raises e) => Some e
  | Ev_LoadLibrary _ (Raises e) => Some e
  | Ev_call _ _ fx => match result fx with Raises e => Some e | Returns _ => None end
  | _ => None
  end.

Definition failures (evs : list event) : list exn := omap failure evs.

(** The driver functions an interaction sequence invokes. *)
Definition symbol (ev : event) : option string :=
  match ev with
  | Ev_call sym _ _ => Some sym
  | _ => None
  end.

Definition symbols (evs : list event) : list string := omap symbol evs.

(** What the caller gets when [e] is raised inside the [try] block of a
    method: the RuntimeError of the [except] clause, with [e] as its
    [__context__], when [e] is an instance of [Exception]; [e] itself
    otherwise. *)
Definition reraised (prefix : string) (e : exn) : exn :=
  if isinstance e "Exception"
  then with_context (RuntimeError (prefix +:+ str e)) e
  else e.

(** The [try] block with the [except] clause shared by all methods. *)
Definition reraise {A B : Type} (prefix : string) (r : outcome A) (v : B) : outcome B :=
  match r with
  | Returns _ => Returns v
  | Raises e => Raises (reraised prefix e)
  end.

(** ** Sample outside worlds *)

Definition double_of_Z (z : Z) : double := binary_normalize prec64 emax64 z 0 false.

(** A bench with the driver installed and one device attached.  The state
    counts the scans read so far; the intensities read differ from scan
    to scan.  Every driver function reports the status [st]. *)
Definition bench_call (st : Z) (l : CDLL) (sym : string) (args : list carg)
    (h : heap) (n : nat) : ffi_effect * nat :=
  if String.eqb sym "tlccs_init" then
    (FfiEffect (Returns st) (map (fun a => (a, C_int 7)) (byref_targets args)), n)
  else if String.eqb sym "tlccs_getWavelengthData" then
    (FfiEffect (Returns st)
       (map (fun a => (a, C_double_array (map (fun i => double_of_Z (200 + Z.of_nat i)) (seq 0 NUM_PIXELS))))
            (byref_targets args)), n)
  else if String.eqb sym "tlccs_getScanData" then
    (FfiEffect (Returns st)
       (map (fun a => (a, C_double_array (replicate NUM_PIXELS (double_of_Z (Z.of_nat (S n))))))
            (byref_targets args)), S n)
  else (FfiEffect (Returns st) [], n).

Definition bench (st : Z) : Outside nat := {|
  sys_chdir := fun _ n => (Returns tt, n);
  sys_LoadLibrary := fun _ _ n => (Returns tt, n);
  dll_call := bench_call st
|}.

(** A machine without the VISA runtime: the directory does not exist. *)
Definition no_visa : Outside unit := {|
  sys_chdir := fun path d =>
    (Raises (FileNotFoundError "[WinError 3] The system cannot find the path specified"), d);
  sys_LoadLibrary := fun _ _ d => (Raises (OSError "cannot load library"), d);
  dll_call := fun _ _ _ _ d => (FfiEffect (Raises (OSError "no driver")) [], d)
|}.

(** A bench whose device was unplugged: every driver call raises. *)
Definition unplugged : Outside unit := {|
  sys_chdir := fun _ d => (Returns tt, d);
  sys_LoadLibrary := fun _ _ d => (Returns tt, d);
  dll_call := fun _ _ _ _ d =>
    (FfiEffect (Raises (OSError "exception: access violation reading 0x0000000000000000")) [], d)
|}.

Definition boot {D : Type} (d : D) : process D := Process "C:\Users\lab" [] [] d.

(** The six functions of the driver the module refers to. *)
Definition vendor_functions : list string :=
  ["tlccs_init"; "tlccs_setIntegrationTime"; "tlccs_startScan";
   "tlccs_getWavelengthData"; "tlccs_getScanData"; "tlccs_close"].

(** The message prefix of each method's [except] clause. *)
Definition op_prefix (o : operation) : string :=
  match o with
  | Op_set_integration_time _ => "Failed to set integration time: "
  | Op_start_scan => "Failed to start scan: "
  | Op_get_scan_data => "Failed to retrieve scan data: "
  | Op_close => "Failed to close spectrometer: "
  end.

(** The content of the buffer at [a] after a call stored [sts], when it
    held [xs] before and [a] was passed by reference. *)
Definition buffer_after (a : addr) (sts : list (addr * cobj)) (xs : list double) : list double :=
  fold_left
    (fun cur st =>
       if bool_decide (st.1 = a) then
         match st.2 with
         | C_double_array ys => overwrite cur ys
         | C_int _ => cur
         end
       else cur)
    sts xs.

(** The instance refers to a live [c_int]. *)
Definition wf_self {D : Type} (s : Spectrometer) (p : process D) : Prop :=
  exists v, mem p !! ccs_handle s = Some (C_int v).


(** ** The observable behaviour of the methods *)

(** [p'] is reached from [p] through the interactions [evs], with the
    working directory and every ctypes object of [p] left as they were. *)
Definition preserves {D : Type} (p p' : process D) (evs : list event) : Prop :=
  cwd p' = cwd p /\
  length (mem p) <= length (mem p') /\
  (forall i, i < length (mem p) -> mem p' !! i = mem p !! i) /\
  trace p' = trace p ++ evs.

(** A method made of one foreign call. *)
Definition one_call (prefix sym : string) (args : list carg)
    (evs : list event) (r : outcome pyvalue) : Prop :=
  exists fx, evs = [Ev_call sym args fx] /\ r = reraise prefix (result fx) PyNone.

(** The interactions and the result of an operation on an instance whose
    handle holds [hv], when [n] is the next free address. *)
Definition op_behaviour (o : operation) (hv : Z) (n : addr)
    (evs : list event) (r : outcome pyvalue) : Prop :=
  match o with
  | Op_set_integration_time t =>
      match c_double t with
      | Returns d =>
          one_call (op_prefix o) "tlccs_setIntegrationTime"
                   [A_c_int hv; A_c_double d] evs r
      | Raises e =>
          evs = [] /\ r = Raises (reraised (op_prefix o) e)
      end
  | Op_start_scan =>
      one_call (op_prefix o) "tlccs_startScan" [A_c_int hv] evs r
  | Op_get_scan_data =>
      exists fx1,
        let ev1 := Ev_call "tlccs_getWavelengthData"
                     [A_c_int hv; A_int 0; A_byref n; A_c_void_p None; A_c_void_p None]
                     fx1 in
        match result fx1 with
        | Raises e =>
            evs = [ev1] /\ r = Raises (reraised (op_prefix o) e)
        | Returns _ =>
            exists fx2,
              evs = [ev1; Ev_call "tlccs_getScanData" [A_c_int hv; A_byref (S n)] fx2] /\
              r = reraise (op_prefix o) (result fx2)
                    (PyTuple2 (Ndarray n [NUM_PIXELS]) (Ndarray (S n) [NUM_PIXELS]))
        end
  | Op_close =>
      one_call (op_prefix o) "tlccs_close" [A_c_int hv] evs r
  end.

(** The interactions and the result of [Spectrometer()] when [n] is the
    next free address. *)
Definition init_behaviour (n : addr) (evs : list event) (r : outcome Spectrometer) : Prop :=
  exists r1,
    let ev1 := Ev_chdir "C:\Program Files\IVI Foundation\VISA\Win64\Bin" r1 in
    match r1 with
    | Raises e =>
        evs = [ev1] /\
        r = Raises (reraised "Failed to load spectrometer DLL: " e)
    | Returns _ =>
        exists r2,
          let ev2 := Ev_LoadLibrary "TLCCS_64.dll" r2 in
          match r2 with
          | Raises e =>
              evs = [ev1; ev2] /\
              r = Raises (reraised "Failed to load spectrometer DLL: " e)
          | Returns l =>
              exists fx,
                l = Cdll "TLCCS_64.dll" /\
                evs = [ev1; ev2;
                       Ev_call "tlccs_init"
                         [A_bytes "USB0::0x1313::0x8089::M00912624::RAW";
                          A_int 1; A_int 1; A_byref n] fx] /\
                r = reraise "Failed to initialize spectrometer: " (result fx)
                      (Self (Some l) n)
          end
    end.

(** An interaction that is a call of one of the driver functions the
    operations on a constructed instance use. *)
Definition op_call (ev : event) : bool :=
  match ev with
  | Ev_call sym _ _ =>
      bool_decide (sym ∈ ["tlccs_setIntegrationTime"; "tlccs_startScan";
                          "tlccs_getWavelengthData"; "tlccs_getScanData";
                          "tlccs_close"])
  | _ => false
  end.

(** The failure of the conversion of the argument of an operation, if any. *)
Definition conversion_failures (o : operation) : list exn :=
  match o with
  | Op_set_integration_time t =>
      match c_double t with
      | Raises e => [e]
      | Returns _ => []
      end
  | _ => []
  end.

(** The instance and the process on the bench once [Spectrometer()] has
    returned. *)
Definition bench_self : Spectrometer := Self (Some (Cdll "TLCCS_64.dll")) 0.

Definition bench_ready (st : Z) : process nat := (construct (bench st) (boot 0)).2.

(** A constructed instance on the bench whose device was unplugged. *)
Definition unplugged_ready : process unit :=
  Process "C:\Program Files\IVI Foundation\VISA\Win64\Bin" [C_int 0] [] tt.

(** Whom an interaction addresses. *)
Definition callee (ev : event) : string :=
  match ev with
  | Ev_chdir _ _ => "os.chdir"
  | Ev_LoadLibrary _ _ => "cdll.LoadLibrary"
  | Ev_call sym _ _ => sym
  end.

(** The interactions of each operation, in the order of its source. *)
Definition op_callees (o : operation) : list string :=
  match o with
  | Op_set_integration_time _ => ["tlccs_setIntegrationTime"]
  | Op_start_scan => ["tlccs_startScan"]
  | Op_get_scan_data => ["tlccs_getWavelengthData"; "tlccs_getScanData"]
  | Op_close => ["tlccs_close"]
  end.

Definition init_callees : list string :=
  ["os.chdir"; "cdll.LoadLibrary"; "tlccs_init"].

(** Nothing follows an interaction that failed. *)
Fixpoint no_retry (evs : list event) : bool :=
  match evs with
  | [] => true
  | ev :: rest =>
      match failure ev with
      | Some _ => match rest with [] => true | _ :: _ => false end
      | None => no_retry rest
      end
  end.

(** Every call of the driver comes after a successful [LoadLibrary];
    [loaded] tells whether one was seen already. *)
Fixpoint loaded_before_calls (loaded : bool) (evs : list event) : bool :=
  match evs with
  | [] => true
  | Ev_LoadLibrary _ (Returns _) :: rest => loaded_before_calls true rest
  | Ev_call _ _ _ :: rest => loaded && loaded_before_calls loaded rest
  | _ :: rest => loaded_before_calls loaded rest
  end.

Definition is_chdir (ev : event) : bool :=
  match ev with Ev_chdir _ _ => true | _ => false end.

(** A full session on the bench. *)
Definition full_session : list operation :=
  [Op_set_integration_time (PyFloat (double_of_Z 1));
   Op_start_scan; Op_get_scan_data; Op_close].

(** ** Further observations *)

(** The value of the [c_int] at [a] after a call stored [sts], when it
    held [v] before and [a] was passed by reference. *)
Definition int_after (a : addr) (sts : list (addr * cobj)) (v : Z) : Z :=
  fold_left
    (fun cur st =>
       if bool_decide (st.1 = a) then
         match st.2 with
         | C_int w => wrap_int32 w
         | C_double_array _ => cur
         end
       else cur)
    sts v.

(** Two outcomes at the boundary that differ at most in the value
    returned: both return, or both raise the same exception. *)
Definition alike {A B : Type} (r1 : outcome A) (r2 : outcome B) : Prop :=
  match r1, r2 with
  | Returns _, Returns _ => True
  | Raises e1, Raises e2 => e1 = e2
  | _, _ => False
  end.

(** Two outside worlds that differ at most in the status codes their
    driver returns. *)
Definition same_but_status {D : Type} (E1 E2 : Outside D) : Prop :=
  (forall path d,
     alike (sys_chdir E1 path d).1 (sys_chdir E2 path d).1 /\
     (sys_chdir E1 path d).2 = (sys_chdir E2 path d).2) /\
  (forall c name d,
     alike (sys_LoadLibrary E1 c name d).1 (sys_LoadLibrary E2 c name d).1 /\
     (sys_LoadLibrary E1 c name d).2 = (sys_LoadLibrary E2 c name d).2) /\
  (forall l sym args h d,
     alike (result (dll_call E1 l sym args h d).1)
           (result (dll_call E2 l sym args h d).1) /\
     stores (dll_call E1 l sym args h d).1 = stores (dll_call E2 l sym args h d).1 /\
     (dll_call E1 l sym args h d).2 = (dll_call E2 l sym args h d).2).

(** Two processes that agree on everything but the record of their past
    interactions. *)
Definition same_state {D : Type} (p1 p2 : process D) : Prop :=
  cwd p1 = cwd p2 /\ mem p1 = mem p2 /\ outside p1 = outside p2.

(** The driver function an operation addresses first, when the conversion
    of its argument succeeds. *)
Definition first_callee (o : operation) : list string :=
  match o with
  | Op_set_integration_time t =>
      match c_double t with
      | Returns _ => ["tlccs_setIntegrationTime"]
      | Raises _ => []
      end
  | Op_start_scan => ["tlccs_startScan"]
  | Op_get_scan_data => ["tlccs_getWavelengthData"]
  | Op_close => ["tlccs_close"]
  end.

Definition not_scan_data (c : string) : bool :=
  negb (String.eqb c "tlccs_getScanData").

(** A driver call whose first argument is the handle [hv], by value. *)
Definition passes_handle (hv : Z) (ev : event) : bool :=
  match ev with
  | Ev_call _ (A_c_int z :: _) _ => Z.eqb z hv
  | _ => false
  end.

(** A bench whose user presses Ctrl-C during every driver call. *)
Definition interrupted : Outside unit := {|
  sys_chdir := fun _ d => (Returns tt, d);
  sys_LoadLibrary := fun _ _ d => (Returns tt, d);
  dll_call := fun _ _ _ _ d => (FfiEffect (Raises (KeyboardInterrupt "")) [], d)
|}.

(** An interaction recorded with what the outside world [E] answers to
    it, in some state. *)
Definition answered {D : Type} (E : Outside D) (ev : event) : Prop :=
  match ev with
  | Ev_chdir path r => exists d, r = (sys_chdir E path d).1
  | Ev_LoadLibrary name r =>
      exists c d,
        r = match (sys_LoadLibrary E c name d).1 with
            | Returns _ => Returns (Cdll name)
            | Raises e => Raises e
            end
  | Ev_call sym args fx => exists l h d, fx = (dll_call E l sym args h d).1
  end.

(** A bench whose driver finds no device: every function reports the
    status [st] and stores nothing. *)
Definition idle (st : Z) : Outside unit := {|
  sys_chdir := fun _ d => (Returns tt, d);
  sys_LoadLibrary := fun _ _ d => (Returns tt, d);
  dll_call := fun _ _ _ _ d => (FfiEffect (Returns st) [], d)
|}.

(** VI_ERROR_RSRC_NFOUND, the status of the VISA layer for a device that
    is not there. *)
Definition VI_ERROR_RSRC_NFOUND : Z := -1073807343.
(** * Properties *)

(** ** Memory *)

Lemma overwrite_length (old new : list double) :
  length (overwrite old new) = length old.
Proof.
  unfold overwrite. rewrite length_take, length_app, length_drop. lia.
Qed.

Lemma overwrite_full (old new : list double) :
  length new = length old -> overwrite old new = new.
Proof.
  intros H. unfold overwrite.
  rewrite drop_ge by lia. rewrite app_nil_r, <- H. apply firstn_all.
Qed.

Lemma overwrite_lookup_written (old new : list double) (i : nat) :
  i < length new -> i < length old -> overwrite old new !! i = new !! i.
Proof.
  intros Hn Ho. unfold overwrite.
  rewrite lookup_take_lt by lia. apply lookup_app_l. lia.
Qed.

Lemma apply_store_length (targets : list addr) (h : heap) (st : addr * cobj) :
  length (apply_store targets h st) = length h.
Proof.
  unfold apply_store. case_bool_decide; [|done].
  destruct (h !! st.1); [|done]. apply length_insert.
Qed.

Lemma apply_stores_length (targets : list addr) (sts : list (addr * cobj)) (h : heap) :
  length (apply_stores targets sts h) = length h.
Proof.
  unfold apply_stores. revert h.
  induction sts as [|st sts IH]; intros h; simpl; [done|].
  rewrite IH. apply apply_store_length.
Qed.

Lemma apply_store_lookup_ne (targets : list addr) (h : heap) (st : addr * cobj) (a : addr) :
  a ∉ targets -> apply_store targets h st !! a = h !! a.
Proof.
  intros Ha. unfold apply_store. case_bool_decide as Hin; [|done].
  destruct (h !! st.1) eqn:Hl; [|done].
  apply list_lookup_insert_ne. intros Heq. apply Ha. by rewrite <- Heq.
Qed.

Lemma apply_stores_lookup_ne (targets : list addr) (sts : list (addr * cobj))
    (h : heap) (a : addr) :
  a ∉ targets -> apply_stores targets sts h !! a = h !! a.
Proof.
  intros Ha. unfold apply_stores. revert h.
  induction sts as [|st sts IH]; intros h; simpl; [done|].
  rewrite IH. by apply apply_store_lookup_ne.
Qed.

Lemma apply_stores_buffer (a : addr) (sts : list (addr * cobj)) (h : heap)
    (xs : list double) :
  h !! a = Some (C_double_array xs) ->
  apply_stores [a] sts h !! a = Some (C_double_array (buffer_after a sts xs)).
Proof.
  unfold apply_stores, buffer_after. revert h xs.
  induction sts as [|[q o] sts IH]; intros h xs Hl; simpl; [done|].
  unfold apply_store at 2. simpl.
  case_bool_decide as Hin; case_bool_decide as Heq; subst.
  - rewrite Hl. apply IH.
    rewrite list_lookup_insert_eq by (by eapply lookup_lt_Some).
    by destruct o.
  - apply list_elem_of_singleton in Hin. contradiction.
  - exfalso. apply Hin. by apply list_elem_of_singleton.
  - by apply IH.
Qed.

Lemma apply_stores_c_int (a : addr) (sts : list (addr * cobj)) (h : heap) (v : Z) :
  h !! a = Some (C_int v) ->
  exists v', apply_stores [a] sts h !! a = Some (C_int v').
Proof.
  unfold apply_stores. revert h v.
  induction sts as [|[q o] sts IH]; intros h v Hl; simpl; [by exists v|].
  unfold apply_store at 2. simpl.
  case_bool_decide as Hin.
  - apply list_elem_of_singleton in Hin. subst q. rewrite Hl.
    destruct o as [w|ys]; simpl.
    + eapply IH. apply list_lookup_insert_eq. by eapply lookup_lt_Some.
    + eapply IH. rewrite list_lookup_insert_eq by (by eapply lookup_lt_Some). done.
  - by eapply IH.
Qed.

Lemma buffer_after_length (a : addr) (sts : list (addr * cobj)) (xs : list double) :
  length (buffer_after a sts xs) = length xs.
Proof.
  unfold buffer_after. revert xs.
  induction sts as [|[q o] sts IH]; intros xs; simpl; [done|].
  rewrite IH. case_bool_decide; [|done].
  destruct o; [done|]. apply overwrite_length.
Qed.

Lemma buffer_after_single (a : addr) (ys xs : list double) :
  length ys = length xs ->
  buffer_after a [(a, C_double_array ys)] xs = ys.
Proof.
  intros H. unfold buffer_after. simpl.
  rewrite bool_decide_true by done. by apply overwrite_full.
Qed.

(** ** What a method does, step by step *)

Ltac unfold_py :=
  cbv [run_op construct __init__ _load_library _initialize_device
       set_integration_time start_scan get_scan_data close
       try_except bind ret raise lift foreign handle_by_value handle_by_ref
       new_cobj os_chdir cdll_LoadLibrary as_array set_lib set_ccs_handle blank
       lib ccs_handle mem cwd trace outside].


Lemma apply_stores_no_target (sts : list (addr * cobj)) (h : list cobj) :
  apply_stores [] sts h = h.
Proof.
  unfold apply_stores. induction sts as [|st sts IH]; simpl; [done|].
  unfold apply_store at 2. rewrite bool_decide_false; [done|].
  apply not_elem_of_nil.
Qed.

Lemma apply_stores_fresh_keep (sts : list (addr * cobj)) (h : list cobj)
    (c : cobj) (i : nat) :
  i < length h ->
  apply_stores [length h] sts (h ++ [c]) !! i = h !! i.
Proof.
  intros Hi. rewrite apply_stores_lookup_ne.
  - by apply lookup_app_l.
  - intros Hin. apply list_elem_of_singleton in Hin. lia.
Qed.

Lemma preserves_refl {D : Type} (p : process D) : preserves p p [].
Proof. unfold preserves. rewrite app_nil_r. auto. Qed.

Lemma preserves_trans {D : Type} (p1 p2 p3 : process D) (e1 e2 : list event) :
  preserves p1 p2 e1 -> preserves p2 p3 e2 -> preserves p1 p3 (e1 ++ e2).
Proof.
  intros (Hc1 & Hl1 & Hm1 & Ht1) (Hc2 & Hl2 & Hm2 & Ht2).
  unfold preserves. repeat split.
  - congruence.
  - lia.
  - intros i Hi. rewrite Hm2 by lia. by apply Hm1.
  - rewrite Ht2, Ht1. by rewrite app_assoc.
Qed.

Lemma preserves_new_events {D : Type} (p p' : process D) (evs : list event) :
  preserves p p' evs -> new_events p p' = evs.
Proof.
  intros (_ & _ & _ & Ht). unfold new_events. rewrite Ht.
  apply drop_app_length.
Qed.

Ltac case_class :=
  repeat match goal with
         | |- context [isinstance ?e "Exception"] =>
             let H := fresh "Hcls" in
             destruct (isinstance e "Exception") eqn:H
         end.

Ltac by_class :=
  cbn [reraise result]; unfold reraised;
  repeat match goal with
         | H : isinstance _ _ = _ |- _ => rewrite H
         end;
  reflexivity.

Ltac simpl_lengths :=
  repeat first [ rewrite apply_stores_length | rewrite length_app ];
  cbn [length].

Ltac solve_preserves :=
  unfold preserves; cbn [cwd mem trace outside byref_targets flat_map app];
  rewrite ?apply_stores_no_target;
  refine (conj _ (conj _ (conj _ _)));
  [ reflexivity
  | simpl_lengths; lia
  | intros i Hi;
    repeat first
      [ rewrite apply_stores_lookup_ne
          by (intros Hin; apply list_elem_of_singleton in Hin;
              revert Hin; simpl_lengths; lia)
      | rewrite lookup_app_l by (simpl_lengths; lia) ];
    reflexivity
  | first [ reflexivity
          | rewrite <- ?app_assoc; reflexivity
          | symmetry; apply app_nil_r ] ].

Lemma c_int_value_app (m : list cobj) (x : cobj) (a : addr) :
  a < length m -> c_int_value (m ++ [x]) a = c_int_value m a.
Proof. intros Ha. unfold c_int_value. by rewrite lookup_app_l by lia. Qed.

Lemma c_int_value_fresh_store (m : list cobj) (x : cobj)
    (sts : list (addr * cobj)) (a : addr) :
  a < length m ->
  c_int_value (apply_stores [length m] sts (m ++ [x])) a = c_int_value m a.
Proof.
  intros Ha. unfold c_int_value. by rewrite apply_stores_fresh_keep by lia.
Qed.

Lemma fresh_buffer_after (m : list cobj) (sts : list (addr * cobj)) (xs : list double) :
  apply_stores [length m] sts (m ++ [C_double_array xs]) !! length m
  = Some (C_double_array (buffer_after (length m) sts xs)).
Proof. apply apply_stores_buffer. apply list_lookup_middle. done. Qed.

(** [get_scan_data] in full: its two fresh buffers, its two calls, and
    what the buffers hold when it returns. *)
Lemma get_scan_data_run {D : Type} (E : Outside D) (l : CDLL) (a : addr)
    (p : process D) :
  a < length (mem p) ->
  exists r p' evs,
    get_scan_data E (Self (Some l) a) p = (r, Self (Some l) a, p') /\
    preserves p p' evs /\
    op_behaviour Op_get_scan_data (c_int_value (mem p) a) (length (mem p)) evs r /\
    (raised r = false ->
     exists fx1 fx2 args1 args2,
       evs = [Ev_call "tlccs_getWavelengthData" args1 fx1;
              Ev_call "tlccs_getScanData" args2 fx2] /\
       length (mem p') = length (mem p) + 2 /\
       mem p' !! length (mem p)
       = Some (C_double_array
                 (buffer_after (length (mem p)) (stores fx1)
                               (replicate NUM_PIXELS dzero))) /\
       mem p' !! S (length (mem p))
       = Some (C_double_array
                 (buffer_after (S (length (mem p))) (stores fx2)
                               (replicate NUM_PIXELS dzero)))).
Proof.
  intros Ha. destruct p as [c m t d0]. cbn [mem] in *.
  unfold_py. unfold c_double_array.
  rewrite (c_int_value_app m _ a Ha).
  destruct (dll_call E l "tlccs_getWavelengthData" _ _ d0) as [[r1 sts1] d1] eqn:Hc1.
  cbn [result stores byref_targets flat_map app].
  destruct r1 as [z1|e1].
  - set (m1 := apply_stores [length m] sts1 (m ++ [C_double_array (replicate NUM_PIXELS dzero)])).
    assert (Hl1 : length m1 = S (length m)).
    { unfold m1. rewrite apply_stores_length, length_app. simpl. lia. }
    assert (Hv1 : c_int_value (m1 ++ [C_double_array (replicate NUM_PIXELS dzero)]) a
                  = c_int_value m a).
    { rewrite c_int_value_app by lia. apply c_int_value_fresh_store. lia. }
    rewrite Hv1.
    destruct (dll_call E l "tlccs_getScanData" _ _ d1) as [[r2 sts2] d2] eqn:Hc2.
    cbn [result stores byref_targets flat_map app].
    set (m2 := apply_stores [length m1] sts2 (m1 ++ [C_double_array (replicate NUM_PIXELS dzero)])).
    assert (Hw : m2 !! length m
                 = Some (C_double_array (buffer_after (length m) sts1 (replicate NUM_PIXELS dzero)))).
    { unfold m2. rewrite apply_stores_fresh_keep by lia. apply fresh_buffer_after. }
    assert (Hd : m2 !! length m1
                 = Some (C_double_array (buffer_after (length m1) sts2 (replicate NUM_PIXELS dzero)))).
    { apply fresh_buffer_after. }
    assert (Hl2 : length m2 = length m + 2).
    { unfold m2. rewrite apply_stores_length, length_app. simpl. lia. }
    assert (Hp : preserves (Process c m t d0)
                   (Process c m2
                      ((t ++ [Ev_call "tlccs_getWavelengthData"
                                [A_c_int (c_int_value m a); A_int 0; A_byref (length m);
                                 A_c_void_p None; A_c_void_p None]
                                (FfiEffect (Returns z1) sts1)]) ++
                       [Ev_call "tlccs_getScanData"
                          [A_c_int (c_int_value m a); A_byref (length m1)]
                          (FfiEffect r2 sts2)]) d2)
                   [Ev_call "tlccs_getWavelengthData"
                      [A_c_int (c_int_value m a); A_int 0; A_byref (length m);
                       A_c_void_p None; A_c_void_p None]
                      (FfiEffect (Returns z1) sts1);
                    Ev_call "tlccs_getScanData"
                      [A_c_int (c_int_value m a); A_byref (length m1)]
                      (FfiEffect r2 sts2)]).
    { refine (conj _ (conj _ (conj _ _))); cbn [cwd mem trace].
      - reflexivity.
      - lia.
      - intros i Hi. unfold m2. rewrite apply_stores_fresh_keep by lia.
        unfold m1. by rewrite apply_stores_fresh_keep by lia.
      - by rewrite <- app_assoc. }
    destruct r2 as [z2|e2].
    + rewrite Hw, Hd, !buffer_after_length, !length_replicate.
      do 3 eexists. split; [reflexivity|]. split; [exact Hp|]. split.
      * exists (FfiEffect (Returns z1) sts1). cbn [result].
        exists (FfiEffect (Returns z2) sts2). rewrite Hl1. split; reflexivity.
      * intros _. do 4 eexists. split; [reflexivity|].
        cbn [mem]. rewrite <- Hl1. auto.
    + case_class; (do 3 eexists; split; [reflexivity|]; split; [exact Hp|]; split;
        [ exists (FfiEffect (Returns z1) sts1); cbn [result];
          exists (FfiEffect (Raises e2) sts2); rewrite Hl1; split; [reflexivity|by_class]
        | intros Hr; discriminate Hr ]).
  - case_class; (do 3 eexists; split; [reflexivity|]; split; [solve_preserves|]; split;
      [ exists (FfiEffect (Raises e1) sts1); cbn [result]; split; [reflexivity|by_class]
      | intros Hr; discriminate Hr ]).
Qed.

(** Every operation on a constructed instance behaves as [op_behaviour]
    says, changes no attribute and no existing ctypes object. *)
Lemma run_op_behaviour {D : Type} (E : Outside D) (o : operation)
    (l : CDLL) (a : addr) (p : process D) :
  a < length (mem p) ->
  exists r p' evs,
    run_op E o (Self (Some l) a) p = (r, Self (Some l) a, p') /\
    preserves p p' evs /\
    op_behaviour o (c_int_value (mem p) a) (length (mem p)) evs r.
Proof.
  intros Ha. destruct o as [tm| | |].
  - destruct p as [c m t d0]. cbn [mem] in Ha. unfold_py.
    unfold op_behaviour. destruct (c_double tm) as [dv|e].
    + destruct (dll_call E l _ _ m d0) as [[r sts] d1] eqn:Hc.
      cbn [result stores].
      destruct r as [z|e]; case_class; do 3 eexists; (split; [reflexivity|]);
        (split; [solve_preserves|]); eexists; (split; [reflexivity|by_class]).
    + case_class; do 3 eexists; (split; [reflexivity|]);
        (split; [apply preserves_refl|]); (split; [reflexivity|by_class]).
  - destruct p as [c m t d0]. cbn [mem] in Ha. unfold_py.
    destruct (dll_call E l _ _ m d0) as [[r sts] d1] eqn:Hc.
    cbn [result stores].
    destruct r as [z|e]; case_class; do 3 eexists; (split; [reflexivity|]);
      (split; [solve_preserves|]); eexists; (split; [reflexivity|by_class]).
  - destruct (get_scan_data_run E l a p Ha) as (r & p' & evs & Hrun & Hp & Hb & _).
    exists r, p', evs. auto.
  - destruct p as [c m t d0]. cbn [mem] in Ha. unfold_py.
    destruct (dll_call E l _ _ m d0) as [[r sts] d1] eqn:Hc.
    cbn [result stores].
    destruct r as [z|e]; case_class; do 3 eexists; (split; [reflexivity|]);
      (split; [solve_preserves|]); eexists; (split; [reflexivity|by_class]).
Qed.

(** Construction in full. *)
Lemma construct_behaviour {D : Type} (E : Outside D) (p : process D) :
  exists r p' evs,
    construct E p = (r, p') /\
    trace p' = trace p ++ evs /\
    init_behaviour (length (mem p)) evs r /\
    length (mem p') = S (length (mem p)) /\
    (forall i, i < length (mem p) -> mem p' !! i = mem p !! i) /\
    (exists v, mem p' !! length (mem p) = Some (C_int v)) /\
    cwd p' = match evs with
             | Ev_chdir path (Returns _) :: _ => path
             | _ => cwd p
             end.
Proof.
  destruct p as [c m t d0]. unfold_py. unfold init_behaviour.
  destruct (sys_chdir E _ d0) as [r1 d1] eqn:H1.
  destruct r1 as [[]|e1].
  - destruct (sys_LoadLibrary E _ _ d1) as [r2 d2] eqn:H2.
    destruct r2 as [[]|e2].
    + destruct (dll_call E _ _ _ _ d2) as [[r3 sts3] d3] eqn:H3.
      cbn [result stores byref_targets flat_map app].
      destruct (apply_stores_c_int (length m) sts3 (m ++ [c_int 0]) (wrap_int32 0))
        as [v Hv]; [by apply list_lookup_middle|].
      destruct r3 as [z|e3].
      * do 3 eexists. split; [reflexivity|]. cbn [trace mem cwd].
        split; [by rewrite <- !app_assoc|].
        split. { exists (Returns tt). exists (Returns (Cdll "TLCCS_64.dll")).
                 exists (FfiEffect (Returns z) sts3). repeat split. }
        rewrite apply_stores_length, length_app. cbn [length].
        split; [lia|]. split; [intros i Hi; by apply apply_stores_fresh_keep|].
        split; [by exists v|reflexivity].
      * case_class; (do 3 eexists; split; [reflexivity|]; cbn [trace mem cwd];
          split; [by rewrite <- !app_assoc|];
          split; [ exists (Returns tt); exists (Returns (Cdll "TLCCS_64.dll"));
                   exists (FfiEffect (Raises e3) sts3);
                   split; [reflexivity|]; split; [reflexivity|by_class] |];
          rewrite apply_stores_length, length_app; cbn [length];
          split; [lia|]; split; [intros i Hi; by apply apply_stores_fresh_keep|];
          split; [by exists v|reflexivity]).
    + case_class; (do 3 eexists; split; [reflexivity|]; cbn [trace mem cwd];
        split; [by rewrite <- !app_assoc|];
        split; [ exists (Returns tt); exists (Raises e2);
                 split; [reflexivity|by_class] |];
        rewrite length_app; cbn [length];
        split; [lia|]; split; [intros i Hi; by apply lookup_app_l|];
        split; [|reflexivity]; eexists; by apply list_lookup_middle).
  - case_class; (do 3 eexists; split; [reflexivity|]; cbn [trace mem cwd];
      split; [reflexivity|];
      split; [ exists (Raises e1); split; [reflexivity|by_class] |];
      rewrite length_app; cbn [length];
      split; [lia|]; split; [intros i Hi; by apply lookup_app_l|];
      split; [|reflexivity]; eexists; by apply list_lookup_middle).
Qed.

Ltac solve_calls :=
  split; [by repeat constructor | split; [by eexists | reflexivity]].

(** Whatever the instance, an operation assigns no attribute, leaves the
    working directory and the existing ctypes objects alone, and talks to
    the driver only, in the order of its source, stopping at the first
    failure. *)
Lemma run_op_frame {D : Type} (E : Outside D) (o : operation)
    (s : Spectrometer) (p : process D) :
  exists r p' evs,
    run_op E o s p = (r, s, p') /\
    preserves p p' evs /\
    Forall (fun ev => op_call ev = true) evs /\
    map callee evs `prefix_of` op_callees o /\
    no_retry evs = true.
Proof.
  destruct p as [c m t d0]. destruct s as [[l|] a].
  - destruct o as [tm| | |]; unfold_py.
    + destruct (c_double tm) as [dv|e].
      * destruct (dll_call E l _ _ m d0) as [[r sts] d1].
        cbn [result stores].
        destruct r; case_class; do 3 eexists; (split; [reflexivity|]);
          (split; [solve_preserves|]); solve_calls.
      * case_class; do 3 eexists; (split; [reflexivity|]);
          (split; [apply preserves_refl|]); solve_calls.
    + destruct (dll_call E l _ _ m d0) as [[r sts] d1].
      cbn [result stores].
      destruct r; case_class; do 3 eexists; (split; [reflexivity|]);
        (split; [solve_preserves|]); solve_calls.
    + destruct (dll_call E l "tlccs_getWavelengthData" _ _ d0) as [[r1 sts1] d1].
      cbn [result stores].
      destruct r1.
      * destruct (dll_call E l "tlccs_getScanData" _ _ d1) as [[r2 sts2] d2].
        cbn [result stores].
        destruct r2; case_class; do 3 eexists; (split; [reflexivity|]);
          (split; [solve_preserves|]); solve_calls.
      * case_class; do 3 eexists; (split; [reflexivity|]);
          (split; [solve_preserves|]); solve_calls.
    + destruct (dll_call E l _ _ m d0) as [[r sts] d1].
      cbn [result stores].
      destruct r; case_class; do 3 eexists; (split; [reflexivity|]);
        (split; [solve_preserves|]); solve_calls.
  - destruct o as [tm| | |]; unfold_py.
    + destruct (c_double tm) as [dv|e]; case_class;
        do 3 eexists; (split; [reflexivity|]);
        (split; [apply preserves_refl|]); solve_calls.
    + case_class; do 3 eexists; (split; [reflexivity|]);
        (split; [apply preserves_refl|]); solve_calls.
    + case_class;
        (eexists; exists (Process c (m ++ [c_double_array NUM_PIXELS]) t d0), [];
         split; [reflexivity|]; split; [solve_preserves|]; solve_calls).
    + case_class; do 3 eexists; (split; [reflexivity|]);
        (split; [apply preserves_refl|]); solve_calls.
Qed.

Lemma run_ops_frame {D : Type} (E : Outside D) (ops : list operation)
    (s : Spectrometer) (p : process D) :
  exists rs p' evs,
    run_ops E ops s p = (rs, s, p') /\
    preserves p p' evs /\
    Forall (fun ev => op_call ev = true) evs.
Proof.
  revert p. induction ops as [|o ops IH]; intros p.
  - exists [], p, []. split; [reflexivity|]. split; [apply preserves_refl|constructor].
  - destruct (run_op_frame E o s p) as (r & p1 & e1 & Hrun & Hp1 & Hc1 & _).
    destruct (IH p1) as (rs & p2 & e2 & Hruns & Hp2 & Hc2).
    exists (r :: rs), p2, (e1 ++ e2).
    split; [|split].
    + cbn [run_ops]. by rewrite Hrun, Hruns.
    + by eapply preserves_trans.
    + by apply Forall_app.
Qed.

(** The life of an instance: the interactions of the construction, then
    calls of the driver only. *)
Lemma session_events {D : Type} (E : Outside D) (ops : list operation)
    (p : process D) :
  exists r0 p0 evs0 evs1,
    construct E p = (r0, p0) /\
    init_behaviour (length (mem p)) evs0 r0 /\
    trace p0 = trace p ++ evs0 /\
    new_events p (session E ops p) = evs0 ++ evs1 /\
    Forall (fun ev => op_call ev = true) evs1 /\
    (raised r0 = true -> evs1 = []) /\
    cwd (session E ops p) = match evs0 with
                            | Ev_chdir path (Returns _) :: _ => path
                            | _ => cwd p
                            end.
Proof.
  destruct (construct_behaviour E p)
    as (r0 & p0 & evs0 & Hc & Ht & Hb & _ & _ & _ & Hcwd0).
  unfold session. rewrite Hc. destruct r0 as [s|e].
  - destruct (run_ops_frame E ops s p0) as (rs & p' & evs1 & Hr & Hp & Hcalls).
    exists (Returns s), p0, evs0, evs1. rewrite Hr. cbn [snd].
    destruct Hp as (Hcwd & _ & _ & Ht').
    repeat split; try done; [|congruence].
    unfold new_events. rewrite Ht', Ht, <- app_assoc. apply drop_app_length.
  - exists (Raises e), p0, evs0, []. repeat split; try done.
    + unfold new_events. rewrite Ht, app_nil_r. apply drop_app_length.
Qed.

Lemma op_call_symbol (evs : list event) (sym : string) :
  Forall (fun ev => op_call ev = true) evs ->
  sym ∈ symbols evs ->
  sym ∈ vendor_functions.
Proof.
  intros Hall Hin. apply list_elem_of_omap in Hin as (ev & Hev & Hsym).
  rewrite Forall_forall in Hall. specialize (Hall ev Hev).
  destruct ev as [| |sym' args fx]; try discriminate.
  injection Hsym as ->. cbn in Hall. apply bool_decide_eq_true in Hall.
  unfold vendor_functions. rewrite !elem_of_cons in *. tauto.
Qed.

Lemma op_call_not_special (evs : list event) :
  Forall (fun ev => op_call ev = true) evs ->
  Forall (fun ev => is_chdir ev = false) evs /\
  loaded_before_calls true evs = true.
Proof.
  induction 1 as [|ev evs Hev _ [IH1 IH2]]; [by split|].
  destruct ev as [| |sym args fx]; try discriminate. split.
  - by constructor.
  - exact IH2.
Qed.

Lemma init_behaviour_symbol (n : addr) (evs : list event) (r : outcome Spectrometer)
    (sym : string) :
  init_behaviour n evs r -> sym ∈ symbols evs -> sym = "tlccs_init".
Proof.
  intros (r1 & Hb) Hin. destruct r1 as [[]|e1].
  - destruct Hb as (r2 & Hb). destruct r2 as [l|e2].
    + destruct Hb as (fx & _ & -> & _). cbn in Hin.
      by apply list_elem_of_singleton in Hin.
    + destruct Hb as (-> & _). cbn in Hin. by apply elem_of_nil in Hin.
  - destruct Hb as (-> & _). cbn in Hin. by apply elem_of_nil in Hin.
Qed.

Lemma construct_observed {D : Type} (E : Outside D) (p : process D) :
  init_behaviour (length (mem p)) (new_events p (construct E p).2) (construct E p).1.
Proof.
  destruct (construct_behaviour E p) as (r & p' & evs & Hc & Ht & Hb & _).
  rewrite Hc. cbn [fst snd]. unfold new_events. rewrite Ht.
  by rewrite drop_app_length.
Qed.

Lemma prefix_NoDup_of {A : Type} (l k : list A) :
  l `prefix_of` k -> NoDup k -> NoDup l.
Proof. intros [k' ->] Hnd. by apply NoDup_app in Hnd as [Hnd _]. Qed.

Lemma op_callees_NoDup (o : operation) : NoDup (op_callees o).
Proof.
  destruct o; cbn; repeat (apply NoDup_cons; split);
    try (apply NoDup_nil; exact I);
    rewrite ?elem_of_cons, elem_of_nil; intros H; repeat destruct H as [H|H];
    try discriminate H; contradiction.
Qed.

Lemma init_callees_NoDup : NoDup init_callees.
Proof.
  unfold init_callees. repeat (apply NoDup_cons; split);
    try (apply NoDup_nil; exact I);
    rewrite ?elem_of_cons, elem_of_nil; intros H; repeat destruct H as [H|H];
    try discriminate H; contradiction.
Qed.

Lemma init_behaviour_callees (n : addr) (evs : list event) (r : outcome Spectrometer) :
  init_behaviour n evs r ->
  map callee evs `prefix_of` init_callees /\ no_retry evs = true.
Proof.
  intros (r1 & Hb). destruct r1 as [[]|e1].
  - destruct Hb as (r2 & Hb). destruct r2 as [l|e2].
    + destruct Hb as (fx & _ & -> & _). split; [by exists []|].
      cbn. by destruct (result fx).
    + destruct Hb as (-> & _). split; [by eexists|reflexivity].
  - destruct Hb as (-> & _). split; [by eexists|reflexivity].
Qed.

(** What a successful [get_scan_data] leaves behind. *)
Lemma get_scan_data_success {D : Type} (E : Outside D) (l : CDLL) (a : addr)
    (p : process D) (v : pyvalue) (s' : Spectrometer) (p' : process D) :
  a < length (mem p) ->
  get_scan_data E (Self (Some l) a) p = (Returns v, s', p') ->
  v = PyTuple2 (Ndarray (length (mem p)) [NUM_PIXELS])
               (Ndarray (S (length (mem p))) [NUM_PIXELS]) /\
  s' = Self (Some l) a /\
  (exists evs, preserves p p' evs) /\
  length (mem p') = length (mem p) + 2 /\
  exists xs ys,
    mem p' !! length (mem p) = Some (C_double_array xs) /\ length xs = NUM_PIXELS /\
    mem p' !! S (length (mem p)) = Some (C_double_array ys) /\ length ys = NUM_PIXELS.
Proof.
  intros Ha Hrun.
  destruct (get_scan_data_run E l a p Ha)
    as (r & p'' & evs & Hrun' & Hp & Hb & Hmem).
  rewrite Hrun in Hrun'. injection Hrun' as <- <- <-.
  destruct (Hmem eq_refl) as (fx1 & fx2 & args1 & args2 & Hevs & Hlen & Hw & Hd).
  destruct Hb as (gx1 & Hb). destruct (result gx1) as [z1|e1]; [|by destruct Hb].
  destruct Hb as (gx2 & _ & Hv).
  destruct (result gx2) as [z2|e2]; [|discriminate Hv].
  injection Hv as ->.
  split; [reflexivity|]. split; [reflexivity|]. split; [by exists evs|].
  split; [exact Hlen|].
  do 2 eexists. split; [exact Hw|]. split; [|split; [exact Hd|]];
    by rewrite buffer_after_length, length_replicate.
Qed.

(** ** Constructed instances *)

(** The instance [Spectrometer()] returns has its library loaded and
    refers to a live [c_int]. *)
Lemma constructed_instance_is_live {D : Type} (E : Outside D) (p : process D)
    (s : Spectrometer) (p' : process D) :
  construct E p = (Returns s, p') ->
  s = Self (Some (Cdll "TLCCS_64.dll")) (length (mem p)) /\
  ccs_handle s < length (mem p') /\
  wf_self s p'.
Proof.
  intros Hc.
  destruct (construct_behaviour E p)
    as (r & q & evs & Hc' & _ & Hb & Hlen & _ & Hcell & _).
  rewrite Hc in Hc'. injection Hc' as <- <-.
  destruct Hb as (r1 & Hb). destruct r1 as [[]|e1]; [|by destruct Hb].
  destruct Hb as (r2 & Hb). destruct r2 as [l|e2]; [|by destruct Hb].
  destruct Hb as (fx & -> & _ & Hr).
  destruct (result fx); [|discriminate Hr]. injection Hr as ->.
  cbn [ccs_handle]. split; [reflexivity|]. split; [lia|exact Hcell].
Qed.

(** Operations keep it so. *)
Lemma run_ops_keep_live {D : Type} (E : Outside D) (ops : list operation)
    (s : Spectrometer) (p : process D) :
  wf_self s p ->
  (run_ops E ops s p).1.2 = s /\ wf_self s (run_ops E ops s p).2.
Proof.
  intros [v Hv].
  destruct (run_ops_frame E ops s p)
    as (rs & p' & evs & Hrun & (_ & _ & Hkeep & _) & _).
  rewrite Hrun. cbn [fst snd]. split; [reflexivity|].
  exists v. rewrite Hkeep; [exact Hv|]. by eapply lookup_lt_Some.
Qed.

(** ** Sample runs *)

Example construct_without_visa :
  construct no_visa (boot tt)
  = (Raises
       (with_context
          (RuntimeError
             "Failed to load spectrometer DLL: [WinError 3] The system cannot find the path specified")
          (FileNotFoundError "[WinError 3] The system cannot find the path specified")),
     Process "C:\Users\lab" [C_int 0]
       [Ev_chdir "C:\Program Files\IVI Foundation\VISA\Win64\Bin"
          (Raises (FileNotFoundError
             "[WinError 3] The system cannot find the path specified"))]
       tt).
Proof. reflexivity. Qed.

Example construct_unplugged :
  (construct unplugged (boot tt)).1
  = Raises
      (with_context
         (RuntimeError
            "Failed to initialize spectrometer: exception: access violation reading 0x0000000000000000")
         (OSError "exception: access violation reading 0x0000000000000000")).
Proof. reflexivity. Qed.

Example construct_on_bench :
  construct (bench 0) (boot 0)
  = (Returns bench_self,
     Process "C:\Program Files\IVI Foundation\VISA\Win64\Bin" [C_int 7]
       [Ev_chdir "C:\Program Files\IVI Foundation\VISA\Win64\Bin" (Returns tt);
        Ev_LoadLibrary "TLCCS_64.dll" (Returns (Cdll "TLCCS_64.dll"));
        Ev_call "tlccs_init"
          [A_bytes "USB0::0x1313::0x8089::M00912624::RAW"; A_int 1; A_int 1; A_byref 0]
          (FfiEffect (Returns 0%Z) [(0, C_int 7)])]
       0).
Proof. reflexivity. Qed.

Example c_double_of_float (d : double) : c_double (PyFloat d) = Returns d.
Proof. reflexivity. Qed.

Example c_double_of_int :
  c_double (PyInt 3) = Returns (S754_finite false 6755399441055744 (-51)).
Proof. reflexivity. Qed.

Example c_double_of_huge_int :
  c_double (PyInt (2 ^ 1024))
  = Raises (OverflowError "int too large to convert to float").
Proof. vm_compute. reflexivity. Qed.

Example c_double_of_str :
  c_double (PyStr "0.1") = Raises (TypeError "must be real number, not str").
Proof. reflexivity. Qed.

Example set_integration_time_of_str :
  set_integration_time (bench 0) (PyStr "0.1") bench_self (bench_ready 0)
  = (Raises
       (with_context
          (RuntimeError "Failed to set integration time: must be real number, not str")
          (TypeError "must be real number, not str")),
     bench_self, bench_ready 0).
Proof. vm_compute. reflexivity. Qed.

(** Ctrl-C during a driver call: [except Exception] does not catch the
    KeyboardInterrupt, which reaches the caller as it is. *)
Example start_scan_interrupted :
  (start_scan interrupted bench_self unplugged_ready).1.1
  = Raises (KeyboardInterrupt "").
Proof. reflexivity. Qed.

Example construct_interrupted :
  (construct interrupted (boot tt)).1 = Raises (KeyboardInterrupt "").
Proof. reflexivity. Qed.

(** The RuntimeError of a failed call: its class, its text, and the
    original exception, which the caller finds in [__context__]. *)
Example start_scan_unplugged :
  match (start_scan unplugged bench_self unplugged_ready).1.1 with
  | Raises x =>
      exn_class x = "RuntimeError" /\
      str x = "Failed to start scan: exception: access violation reading 0x0000000000000000" /\
      exn_context x
      = Some (OSError "exception: access violation reading 0x0000000000000000")
  | Returns _ => False
  end.
Proof. by vm_compute. Qed.

(** Two scans on the bench: the second fills its own buffers, and the
    intensities of the first are still those of the first scan. *)
Example two_scans_on_bench :
  let run1 := get_scan_data (bench 0) bench_self (bench_ready 0) in
  let run2 := get_scan_data (bench 0) bench_self run1.2 in
  run1.1.1 = Returns (PyTuple2 (Ndarray 1 [3648]) (Ndarray 2 [3648])) /\
  run2.1.1 = Returns (PyTuple2 (Ndarray 3 [3648]) (Ndarray 4 [3648])) /\
  nd_contents (mem run1.2) (Ndarray 2 [3648]) = replicate 3648 (double_of_Z 1) /\
  nd_contents (mem run2.2) (Ndarray 2 [3648]) = replicate 3648 (double_of_Z 1) /\
  nd_contents (mem run2.2) (Ndarray 4 [3648]) = replicate 3648 (double_of_Z 2).
Proof. vm_compute. repeat split. Qed.

(** ** The [except] clause, case by case *)

Lemma reraised_caught (prefix : string) (e : exn) :
  isinstance e "Exception" = true ->
  reraised prefix e = with_context (RuntimeError (prefix +:+ str e)) e /\
  exn_class (reraised prefix e) = "RuntimeError" /\
  str (reraised prefix e) = prefix +:+ str e /\
  exn_context (reraised prefix e) = Some e.
Proof. intros H. unfold reraised. rewrite H. by repeat split. Qed.

Lemma reraised_passed (prefix : string) (e : exn) :
  isinstance e "Exception" = false -> reraised prefix e = e.
Proof. intros H. unfold reraised. by rewrite H. Qed.

(** ** The interactions are the answers of the outside world *)

Ltac solve_answered E :=
  repeat constructor;
  match goal with
  | H : dll_call E ?l ?sym ?args ?h ?d = _ |- answered E (Ev_call ?sym ?args _) =>
      exists l, h, d; rewrite H; reflexivity
  end.

Lemma run_op_answered {D : Type} (E : Outside D) (o : operation)
    (s : Spectrometer) (p : process D) :
  Forall (answered E) (new_events p (run_op E o s p).2).
Proof.
  destruct p as [c m t d0]. unfold new_events.
  destruct s as [[l|] a]; destruct o as [tm| | |]; unfold_py;
    try destruct (c_double tm);
    repeat match goal with
           | |- context [dll_call E ?l ?s ?args ?h ?d] =>
               destruct (dll_call E l s args h d) as [[[?|?] ?] ?] eqn:?;
               cbn [result stores]
           end;
    case_class; cbn [snd trace];
    rewrite <- ?app_assoc, ?drop_app_length, ?drop_all;
    first [ by constructor | solve_answered E ].
Qed.

Lemma construct_answered {D : Type} (E : Outside D) (p : process D) :
  Forall (answered E) (new_events p (construct E p).2).
Proof.
  destruct p as [c m t d0]. unfold new_events. unfold_py.
  destruct (sys_chdir E _ d0) as [[[]|e1] d1] eqn:H1.
  - assert (A1 : answered E (Ev_chdir VISA_BIN (Returns tt))).
    { exists d0. by rewrite H1. }
    destruct (sys_LoadLibrary E _ _ d1) as [[[]|e2] d2] eqn:H2.
    + assert (A2 : answered E (Ev_LoadLibrary "TLCCS_64.dll" (Returns (Cdll "TLCCS_64.dll")))).
      { exists VISA_BIN, d1. by rewrite H2. }
      destruct (dll_call E _ _ _ _ d2) as [[[z|e3] sts3] d3] eqn:H3;
        cbn [result stores]; case_class; cbn [snd trace];
        rewrite <- !app_assoc, drop_app_length;
        (constructor; [exact A1|]; constructor; [exact A2|]; constructor; [|constructor];
         eexists _, _, _; rewrite H3; reflexivity).
    + assert (A2 : answered E (Ev_LoadLibrary "TLCCS_64.dll" (Raises e2))).
      { exists VISA_BIN, d1. by rewrite H2. }
      case_class; cbn [snd trace]; rewrite <- !app_assoc, drop_app_length;
        by repeat constructor.
  - assert (A1 : answered E (Ev_chdir VISA_BIN (Raises e1))).
    { exists d0. by rewrite H1. }
    case_class; cbn [snd trace]; rewrite drop_app_length; by repeat constructor.
Qed.

(** A method made of one driver call, with the answer of the driver. *)
Lemma start_scan_exact {D : Type} (E : Outside D) (l : CDLL) (a : addr)
    (p : process D) :
  let self := Self (Some l) a in
  let args := [A_c_int (c_int_value (mem p) a)] in
  let call := dll_call E l "tlccs_startScan" args (mem p) (outside p) in
  new_events p (start_scan E self p).2 = [Ev_call "tlccs_startScan" args call.1] /\
  (start_scan E self p).1.1 = reraise "Failed to start scan: " (result call.1) PyNone /\
  outside (start_scan E self p).2 = call.2.
Proof.
  destruct p as [c m t d0]. unfold new_events. unfold_py.
  destruct (dll_call E l _ _ m d0) as [[[z|e] sts] d1]; cbn [result stores fst snd];
    case_class; cbn [fst snd trace outside]; rewrite drop_app_length;
    (split; [reflexivity|]; split; [by_class|reflexivity]).
Qed.

Lemma set_integration_time_exact {D : Type} (E : Outside D) (l : CDLL) (a : addr)
    (p : process D) (d : double) :
  let self := Self (Some l) a in
  let args := [A_c_int (c_int_value (mem p) a); A_c_double d] in
  let call := dll_call E l "tlccs_setIntegrationTime" args (mem p) (outside p) in
  new_events p (set_integration_time E (PyFloat d) self p).2
  = [Ev_call "tlccs_setIntegrationTime" args call.1] /\
  (set_integration_time E (PyFloat d) self p).1.1
  = reraise "Failed to set integration time: " (result call.1) PyNone /\
  outside (set_integration_time E (PyFloat d) self p).2 = call.2.
Proof.
  destruct p as [c m t d0]. unfold new_events. unfold_py. cbn [c_double].
  destruct (dll_call E l _ _ m d0) as [[[z|e] sts] d1]; cbn [result stores fst snd];
    case_class; cbn [fst snd trace outside]; rewrite drop_app_length;
    (split; [reflexivity|]; split; [by_class|reflexivity]).
Qed.

(** The two driver calls of a [get_scan_data] that returns. *)
Lemma get_scan_data_calls {D : Type} (E : Outside D) (l : CDLL) (a : addr)
    (p : process D) (v : pyvalue) (s' : Spectrometer) (p' : process D) :
  a < length (mem p) ->
  get_scan_data E (Self (Some l) a) p = (Returns v, s', p') ->
  let args1 := [A_c_int (c_int_value (mem p) a); A_int 0; A_byref (length (mem p));
                A_c_void_p None; A_c_void_p None] in
  let args2 := [A_c_int (c_int_value (mem p) a); A_byref (S (length (mem p)))] in
  let m0 := mem p ++ [c_double_array NUM_PIXELS] in
  let call1 := dll_call E l "tlccs_getWavelengthData" args1 m0 (outside p) in
  let m1 := apply_stores [length (mem p)] (stores call1.1) m0
            ++ [c_double_array NUM_PIXELS] in
  let call2 := dll_call E l "tlccs_getScanData" args2 m1 call1.2 in
  new_events p p' = [Ev_call "tlccs_getWavelengthData" args1 call1.1;
                     Ev_call "tlccs_getScanData" args2 call2.1] /\
  mem p' = apply_stores [S (length (mem p))] (stores call2.1) m1 /\
  outside p' = call2.2.
Proof.
  intros Ha. destruct p as [c m t d0]. cbn [mem outside] in *.
  unfold new_events. unfold_py.
  rewrite (c_int_value_app m _ a Ha).
  destruct (dll_call E l "tlccs_getWavelengthData" _ _ d0) as [[r1 sts1] d1] eqn:Hc1.
  cbn [result stores byref_targets flat_map app fst snd].
  destruct r1 as [z1|e1]; [|case_class; discriminate].
  set (m1 := apply_stores [length m] sts1 (m ++ [c_double_array NUM_PIXELS])).
  assert (Hl1 : length m1 = S (length m)).
  { unfold m1. rewrite apply_stores_length, length_app. simpl. lia. }
  assert (Hv1 : c_int_value (m1 ++ [c_double_array NUM_PIXELS]) a = c_int_value m a).
  { rewrite c_int_value_app by lia. apply c_int_value_fresh_store. lia. }
  rewrite Hv1, Hl1.
  destruct (dll_call E l "tlccs_getScanData" _ _ d1) as [[r2 sts2] d2] eqn:Hc2.
  cbn [result stores byref_targets flat_map app fst snd].
  destruct r2 as [z2|e2]; [|case_class; discriminate].
  intros H. injection H as _ _ <-. cbn [trace mem outside].
  rewrite <- app_assoc, drop_app_length. by repeat split.
Qed.

(** * The claims *)

(** ** C1: which foreign function is called, and what comes back *)

(** C1, as the code has it.  On a constructed instance every operation
    performs exactly the expected driver calls with the expected
    arguments: [set_integration_time] turns a float into a [c_double] and
    passes it after the handle to [tlccs_setIntegrationTime], [start_scan]
    passes the handle to [tlccs_startScan], and so on for the others and
    for the constructor; what is recorded of a call is the answer of the
    driver.  The C [int] a driver function returns is discarded: the
    operation returns [None] (the two arrays for [get_scan_data], the
    instance for the constructor).  An exception [e] of a call that is an
    instance of [Exception] comes back as [RuntimeError(prefix + str(e))]
    with [e] as its [__context__]; any other exception (KeyboardInterrupt,
    SystemExit) comes back as it is. *)
Theorem wrapper_calls_and_reraises {D : Type} (E : Outside D) (l : CDLL)
    (a : addr) (p : process D) :
  a < length (mem p) ->
  let self := Self (Some l) a in
  let hv := c_int_value (mem p) a in
  (forall o,
     op_behaviour o hv (length (mem p))
       (new_events p (run_op E o self p).2) (run_op E o self p).1.1) /\
  init_behaviour (length (mem p))
    (new_events p (construct E p).2) (construct E p).1 /\
  (forall o, Forall (answered E) (new_events p (run_op E o self p).2)) /\
  Forall (answered E) (new_events p (construct E p).2) /\
  (forall d,
     let args := [A_c_int hv; A_c_double d] in
     let call := dll_call E l "tlccs_setIntegrationTime" args (mem p) (outside p) in
     new_events p (set_integration_time E (PyFloat d) self p).2
     = [Ev_call "tlccs_setIntegrationTime" args call.1] /\
     (set_integration_time E (PyFloat d) self p).1.1
     = reraise "Failed to set integration time: " (result call.1) PyNone) /\
  (let args := [A_c_int hv] in
   let call := dll_call E l "tlccs_startScan" args (mem p) (outside p) in
   new_events p (start_scan E self p).2 = [Ev_call "tlccs_startScan" args call.1] /\
   (start_scan E self p).1.1
   = reraise "Failed to start scan: " (result call.1) PyNone) /\
  (forall prefix e,
     (isinstance e "Exception" = true ->
      reraised prefix e = with_context (RuntimeError (prefix +:+ str e)) e) /\
     (isinstance e "Exception" = false -> reraised prefix e = e)).
Proof.
  intros Ha self hv.
  split; [|split; [|split; [|split; [|split; [|split]]]]].
  - intros o.
    destruct (run_op_behaviour E o l a p Ha) as (r & p' & evs & Hrun & Hp & Hb).
    unfold self. rewrite Hrun. cbn [fst snd].
    by rewrite (preserves_new_events _ _ _ Hp).
  - apply construct_observed.
  - intros o. apply run_op_answered.
  - apply construct_answered.
  - intros d args call.
    destruct (set_integration_time_exact E l a p d) as (H1 & H2 & _). by split.
  - intros args call.
    destruct (start_scan_exact E l a p) as (H1 & H2 & _). by split.
  - intros prefix e. split.
    + intros H. by destruct (reraised_caught prefix e H).
    + apply reraised_passed.
Qed.

Lemma wrapper_calls_and_reraises_on_bench :
  0 < length (mem (bench_ready 0)) /\
  (let args := [A_c_int (c_int_value (mem (bench_ready 0)) 0)] in
   let call := dll_call (bench 0) (Cdll "TLCCS_64.dll") "tlccs_startScan" args
                 (mem (bench_ready 0)) (outside (bench_ready 0)) in
   new_events (bench_ready 0) (start_scan (bench 0) bench_self (bench_ready 0)).2
   = [Ev_call "tlccs_startScan" args call.1] /\
   (start_scan (bench 0) bench_self (bench_ready 0)).1.1
   = reraise "Failed to start scan: " (result call.1) PyNone).
Proof.
  assert (H : 0 < length (mem (bench_ready 0))) by (vm_compute; lia).
  split; [exact H|].
  exact (proj1 (proj2 (proj2 (proj2 (proj2 (proj2
    (wrapper_calls_and_reraises (bench 0) (Cdll "TLCCS_64.dll") 0 (bench_ready 0) H))))))).
Defined.

(** C1 as stated fails: the status a driver function returns does not
    reach the caller.  On the bench whose driver reports status 7,
    [start_scan] returns [None]. *)
Lemma status_is_not_propagated :
  ~ (forall (D : Type) (E : Outside D) (s : Spectrometer) (p : process D)
            (sym : string) (args : list carg) (fx : ffi_effect),
       last (new_events p (start_scan E s p).2) = Some (Ev_call sym args fx) ->
       (start_scan E s p).1.1
       = match result fx with
         | Returns z => Returns (PyInt z)
         | Raises e => Raises e
         end).
Proof.
  intros H.
  specialize (H nat (bench 7) bench_self (bench_ready 7)
                "tlccs_startScan" [A_c_int 7] (FfiEffect (Returns 7%Z) []) eq_refl).
  vm_compute in H. discriminate H.
Qed.

(** ** C2: how operations fail *)

(** C2, as the code has it.  An operation on a constructed instance
    raises exactly when one step of its [try] block raised: a call at the
    boundary or, for [set_integration_time], the conversion of its
    argument to [c_double] (which cannot fail on a float).  When the
    exception [e] of that step is an instance of [Exception], what the
    operation raises is [RuntimeError(prefix + str(e))], with [e] as its
    [__context__]; when it is not (KeyboardInterrupt, SystemExit), the
    [except Exception] clause does not catch it and the operation raises
    [e] itself.  The same holds for the constructor, whose two [try]
    blocks have a prefix each. *)
Theorem operations_fail_by_reraising {D : Type} (E : Outside D) (l : CDLL)
    (a : addr) (p : process D) :
  a < length (mem p) ->
  (forall o,
     let run := run_op E o (Self (Some l) a) p in
     let causes := conversion_failures o ++ failures (new_events p run.2) in
     match run.1.1 with
     | Returns _ => causes = []
     | Raises x =>
         exists e,
           causes = [e] /\
           (isinstance e "Exception" = true ->
            x = with_context (RuntimeError (op_prefix o +:+ str e)) e /\
            exn_class x = "RuntimeError" /\
            str x = op_prefix o +:+ str e /\
            exn_context x = Some e) /\
           (isinstance e "Exception" = false -> x = e)
     end) /\
  (forall d, conversion_failures (Op_set_integration_time (PyFloat d)) = []) /\
  (forall t e, c_double t = Raises e -> isinstance e "Exception" = true) /\
  (let run := construct E p in
   let causes := failures (new_events p run.2) in
   match run.1 with
   | Returns _ => causes = []
   | Raises x =>
       exists e prefix,
         causes = [e] /\
         prefix ∈ ["Failed to load spectrometer DLL: ";
                   "Failed to initialize spectrometer: "] /\
         (isinstance e "Exception" = true ->
          x = with_context (RuntimeError (prefix +:+ str e)) e /\
          exn_class x = "RuntimeError" /\
          str x = prefix +:+ str e /\
          exn_context x = Some e) /\
         (isinstance e "Exception" = false -> x = e)
   end).
Proof.
  assert (Hcases : forall prefix e,
             (isinstance e "Exception" = true ->
              reraised prefix e = with_context (RuntimeError (prefix +:+ str e)) e /\
              exn_class (reraised prefix e) = "RuntimeError" /\
              str (reraised prefix e) = prefix +:+ str e /\
              exn_context (reraised prefix e) = Some e) /\
             (isinstance e "Exception" = false -> reraised prefix e = e)).
  { intros prefix e. split; [apply reraised_caught|apply reraised_passed]. }
  intros Ha. split; [|split; [|split]].
  - intros o run causes. subst causes run.
    destruct (run_op_behaviour E o l a p Ha) as (r & p' & evs & Hrun & Hp & Hb).
    rewrite Hrun. cbn [fst snd]. rewrite (preserves_new_events _ _ _ Hp).
    clear Hrun Hp.
    destruct o as [tm| | |]; unfold op_behaviour, one_call in Hb;
      unfold conversion_failures.
    + destruct (c_double tm) as [dv|e].
      * destruct Hb as (fx & -> & ->). cbn.
        destruct (result fx) as [z|e]; cbn; [done|].
        exists e. split; [done|]. apply Hcases.
      * destruct Hb as (-> & ->). cbn. exists e. split; [done|]. apply Hcases.
    + destruct Hb as (fx & -> & ->). cbn.
      destruct (result fx) as [z|e]; cbn; [done|].
      exists e. split; [done|]. apply Hcases.
    + destruct Hb as (fx1 & Hb). destruct (result fx1) as [z1|e1] eqn:H1.
      * destruct Hb as (fx2 & -> & ->). cbn. rewrite H1.
        destruct (result fx2) as [z|e]; cbn; [done|].
        exists e. split; [done|]. apply Hcases.
      * destruct Hb as (-> & ->). cbn. rewrite H1.
        exists e1. split; [done|]. apply Hcases.
    + destruct Hb as (fx & -> & ->). cbn.
      destruct (result fx) as [z|e]; cbn; [done|].
      exists e. split; [done|]. apply Hcases.
  - reflexivity.
  - intros t e Hconv. destruct t as [|z|d|s|x y]; cbn in Hconv;
      try (injection Hconv as <-; reflexivity); try discriminate Hconv.
    unfold long_as_double in Hconv.
    destruct (binary_normalize prec64 emax64 z 0 false);
      try discriminate Hconv. by injection Hconv as <-.
  - intros run causes. subst causes run.
    pose proof (construct_observed E p) as Hb.
    destruct Hb as (r1 & Hb). destruct r1 as [[]|e1].
    + destruct Hb as (r2 & Hb). destruct r2 as [l2|e2].
      * destruct Hb as (fx & _ & -> & ->). cbn.
        destruct (result fx) as [z|e]; cbn; [done|].
        exists e, "Failed to initialize spectrometer: ".
        split; [done|]. split; [apply list_elem_of_further, list_elem_of_here|].
        apply Hcases.
      * destruct Hb as (-> & ->). cbn.
        exists e2, "Failed to load spectrometer DLL: ".
        split; [done|]. split; [apply list_elem_of_here|]. apply Hcases.
    + destruct Hb as (-> & ->). cbn.
      exists e1, "Failed to load spectrometer DLL: ".
      split; [done|]. split; [apply list_elem_of_here|]. apply Hcases.
Qed.

Lemma operations_fail_by_reraising_unplugged :
  0 < length (mem unplugged_ready) /\
  (let run := run_op unplugged Op_close bench_self unplugged_ready in
   let causes := conversion_failures Op_close ++ failures (new_events unplugged_ready run.2) in
   match run.1.1 with
   | Returns _ => causes = []
   | Raises x =>
       exists e,
         causes = [e] /\
         (isinstance e "Exception" = true ->
          x = with_context (RuntimeError (op_prefix Op_close +:+ str e)) e /\
          exn_class x = "RuntimeError" /\
          str x = op_prefix Op_close +:+ str e /\
          exn_context x = Some e) /\
         (isinstance e "Exception" = false -> x = e)
   end).
Proof.
  assert (H : 0 < length (mem unplugged_ready)) by (vm_compute; lia).
  split; [exact H|].
  exact (proj1 (operations_fail_by_reraising unplugged (Cdll "TLCCS_64.dll") 0
                  unplugged_ready H) Op_close).
Defined.

(** C2 as stated fails: an operation can raise although no call at the
    boundary raised.  [set_integration_time("0.1")] raises the
    RuntimeError of its [except] clause for the TypeError of
    [c_double("0.1")], and the driver is never called. *)
Lemma failure_without_failed_call :
  ~ (forall (D : Type) (E : Outside D) (o : operation) (s : Spectrometer)
            (p : process D),
       raised (run_op E o s p).1.1 = true
       <-> failures (new_events p (run_op E o s p).2) <> []).
Proof.
  intros H.
  destruct (H nat (bench 0) (Op_set_integration_time (PyStr "0.1"))
              bench_self (bench_ready 0)) as [H1 _].
  apply H1; vm_compute; reflexivity.
Qed.

(** ** C3: the scan data *)

(** C3.  When [get_scan_data] returns, its result is the pair of a
    wavelength array and an intensity array, each a view of shape (3648,)
    over the buffer handed by reference to [tlccs_getWavelengthData] and to
    [tlccs_getScanData] respectively: the two calls of the driver [E], made
    in this order on the handle and the fresh buffers.  The elements seen
    through each view are those the corresponding driver call stored in its
    buffer, binary64 for binary64, over the initial zeros: when the driver
    stores 3648 doubles, the view reads exactly these. *)
Theorem get_scan_data_returns_driver_data {D : Type} (E : Outside D) (l : CDLL)
    (a : addr) (p : process D) (v : pyvalue) (s' : Spectrometer) (p' : process D) :
  a < length (mem p) ->
  get_scan_data E (Self (Some l) a) p = (Returns v, s', p') ->
  NUM_PIXELS = 3648 /\
  exists wl da args1 fx1 args2 fx2,
    v = PyTuple2 wl da /\
    nd_shape wl = [NUM_PIXELS] /\ nd_shape da = [NUM_PIXELS] /\
    new_events p p' = [Ev_call "tlccs_getWavelengthData" args1 fx1;
                       Ev_call "tlccs_getScanData" args2 fx2] /\
    byref_targets args1 = [nd_base wl] /\
    byref_targets args2 = [nd_base da] /\
    nd_contents (mem p') wl
    = buffer_after (nd_base wl) (stores fx1) (replicate NUM_PIXELS dzero) /\
    nd_contents (mem p') da
    = buffer_after (nd_base da) (stores fx2) (replicate NUM_PIXELS dzero) /\
    length (nd_contents (mem p') wl) = NUM_PIXELS /\
    length (nd_contents (mem p') da) = NUM_PIXELS /\
    (forall ys, length ys = NUM_PIXELS ->
                stores fx1 = [(nd_base wl, C_double_array ys)] ->
                nd_contents (mem p') wl = ys) /\
    (forall ys, length ys = NUM_PIXELS ->
                stores fx2 = [(nd_base da, C_double_array ys)] ->
                nd_contents (mem p') da = ys) /\
    args1 = [A_c_int (c_int_value (mem p) a); A_int 0; A_byref (nd_base wl);
             A_c_void_p None; A_c_void_p None] /\
    args2 = [A_c_int (c_int_value (mem p) a); A_byref (nd_base da)] /\
    (let m0 := mem p ++ [c_double_array NUM_PIXELS] in
     let call1 := dll_call E l "tlccs_getWavelengthData" args1 m0 (outside p) in
     let m1 := apply_stores [nd_base wl] (stores call1.1) m0
               ++ [c_double_array NUM_PIXELS] in
     let call2 := dll_call E l "tlccs_getScanData" args2 m1 call1.2 in
     fx1 = call1.1 /\ fx2 = call2.1 /\
     mem p' = apply_stores [nd_base da] (stores call2.1) m1 /\
     outside p' = call2.2).
Proof.
  intros Ha Hrun. split; [reflexivity|].
  destruct (get_scan_data_calls E l a p v s' p' Ha Hrun) as (Hcalls & Hmem' & Hout).
  destruct (get_scan_data_run E l a p Ha)
    as (r & p'' & evs & Hrun' & Hp & Hb & Hmem).
  rewrite Hrun in Hrun'. injection Hrun' as <- _ <-.
  destruct (Hmem eq_refl) as (fx1 & fx2 & args1 & args2 & Hevs & Hlen & Hw & Hd).
  destruct Hb as (gx1 & Hb). destruct (result gx1) as [z1|e1]; [|by destruct Hb].
  destruct Hb as (gx2 & Hevs' & Hv).
  rewrite Hevs in Hevs'. injection Hevs' as -> -> -> ->.
  destruct (result gx2) as [z2|e2]; [|discriminate Hv].
  injection Hv as ->.
  rewrite (preserves_new_events _ _ _ Hp), Hevs in Hcalls.
  injection Hcalls as Hfx1 Hfx2.
  exists (Ndarray (length (mem p)) [NUM_PIXELS]),
         (Ndarray (S (length (mem p))) [NUM_PIXELS]).
  do 4 eexists.
  split; [reflexivity|]. split; [reflexivity|]. split; [reflexivity|].
  split; [rewrite (preserves_new_events _ _ _ Hp); exact Hevs|].
  split; [reflexivity|]. split; [reflexivity|].
  unfold nd_contents. cbn [nd_base]. rewrite Hw, Hd.
  split; [reflexivity|]. split; [reflexivity|].
  rewrite !buffer_after_length, length_replicate.
  split; [reflexivity|]. split; [reflexivity|].
  split; [intros ys Hys ->; apply buffer_after_single; by rewrite length_replicate|].
  split; [intros ys Hys ->; apply buffer_after_single; by rewrite length_replicate|].
  split; [reflexivity|]. split; [reflexivity|].
  cbv zeta. by repeat split.
Qed.

(** On the bench the caller reads the wavelengths 200, 201, ... and the
    intensities of the first scan, as the driver wrote them. *)
Lemma get_scan_data_on_bench :
  let run := get_scan_data (bench 0) bench_self (bench_ready 0) in
  let wl := Ndarray 1 [NUM_PIXELS] in
  let da := Ndarray 2 [NUM_PIXELS] in
  0 < length (mem (bench_ready 0)) /\
  run = (Returns (PyTuple2 wl da), bench_self, run.2) /\
  nd_contents (mem run.2) wl
  = map (fun i => double_of_Z (200 + Z.of_nat i)) (seq 0 NUM_PIXELS) /\
  nd_contents (mem run.2) da = replicate NUM_PIXELS (double_of_Z 1).
Proof.
  intros run wl da.
  assert (H1 : 0 < length (mem (bench_ready 0))) by (vm_compute; lia).
  assert (H2 : run = (Returns (PyTuple2 wl da), bench_self, run.2))
    by (vm_compute; reflexivity).
  split; [exact H1|]. split; [exact H2|].
  destruct (get_scan_data_returns_driver_data (bench 0) (Cdll "TLCCS_64.dll") 0
              (bench_ready 0) _ _ _ H1 H2)
    as (_ & wl' & da' & args1 & fx1 & args2 & fx2 & Hv & _ & _ & _ & _ & _ & _ & _ &
        _ & _ & Hwl & Hda & -> & -> & Hfx1 & Hfx2 & _).
  injection Hv as <- <-.
  split.
  - apply Hwl.
    + by rewrite length_map, length_seq.
    + rewrite Hfx1. vm_compute. reflexivity.
  - apply Hda.
    + by rewrite length_replicate.
    + rewrite Hfx2. vm_compute. reflexivity.
Defined.

(** ** C4: the driver functions the binding invokes *)

(** C4, as the code has it.  The public interface is the constructor and
    four operations.  Whatever the outside world does, the driver
    functions invoked during the life of an instance are among six:
    [tlccs_init], [tlccs_setIntegrationTime], [tlccs_startScan],
    [tlccs_getWavelengthData], [tlccs_getScanData] and [tlccs_close]; each
    operation invokes its own, in the order of its source ([get_scan_data]
    has two). *)
Theorem driver_functions_invoked {D : Type} (E : Outside D)
    (ops : list operation) (p : process D) :
  let evs := new_events p (session E ops p) in
  (forall sym, sym ∈ symbols evs -> sym ∈ vendor_functions) /\
  length (remove_dups (symbols evs)) <= 6 /\
  length vendor_functions = 6 /\
  NoDup vendor_functions /\
  (forall sym, sym ∈ symbols (new_events p (construct E p).2) -> sym = "tlccs_init") /\
  (forall o s q,
     map callee (new_events q (run_op E o s q).2) `prefix_of` op_callees o) /\
  (forall o, (exists t, o = Op_set_integration_time t) \/ o = Op_start_scan \/
             o = Op_get_scan_data \/ o = Op_close).
Proof.
  intros evs.
  assert (Hnd : NoDup vendor_functions).
  { unfold vendor_functions. repeat (apply NoDup_cons; split);
      [| | | | | |apply NoDup_nil; exact I];
      rewrite ?elem_of_cons, elem_of_nil; intros H; repeat destruct H as [H|H];
      try discriminate H; contradiction. }
  assert (Hsub : forall sym, sym ∈ symbols evs -> sym ∈ vendor_functions).
  { subst evs.
    destruct (session_events E ops p)
      as (r0 & p0 & evs0 & evs1 & _ & Hb & _ & -> & Hcalls & _).
    intros sym Hin. unfold symbols in Hin. rewrite omap_app in Hin.
    apply elem_of_app in Hin as [Hin|Hin].
    - rewrite (init_behaviour_symbol _ _ _ _ Hb Hin). apply list_elem_of_here.
    - by eapply op_call_symbol. }
  split; [exact Hsub|]. split; [|split; [reflexivity|split; [exact Hnd|split; [|split]]]].
  - change 6 with (length vendor_functions). apply submseteq_length.
    apply NoDup_submseteq; [apply NoDup_remove_dups|].
    intros sym Hin. apply Hsub. by apply elem_of_remove_dups.
  - destruct (construct_behaviour E p) as (r & p' & evs0 & Hc & Ht & Hb & _).
    rewrite Hc. cbn [snd]. unfold new_events. rewrite Ht, drop_app_length.
    intros sym. by apply init_behaviour_symbol with (1 := Hb).
  - intros o s q.
    destruct (run_op_frame E o s q) as (r & q' & evs' & Hrun & Hp & _ & Hpre & _).
    rewrite Hrun. cbn [snd]. by rewrite (preserves_new_events _ _ _ Hp).
  - intros [t| | |]; eauto.
Qed.

(** C4 as stated fails: a session on the bench invokes six distinct
    functions of the driver, not at most five. *)
Lemma six_driver_functions :
  ~ (forall (D : Type) (E : Outside D) (ops : list operation) (p : process D),
       length (remove_dups (symbols (new_events p (session E ops p)))) <= 5).
Proof.
  intros H. specialize (H nat (bench 0) full_session (boot 0)).
  vm_compute in H. lia.
Qed.

(** ** C5: load the library, then call it *)

(** C5.  During the life of an instance every call of a driver function
    comes after a successful [cdll.LoadLibrary]: [__init__] loads the
    library and assigns [self.lib] before it initialises the device, and an
    instance exists only when both succeeded. *)
Theorem library_loaded_before_calls {D : Type} (E : Outside D)
    (ops : list operation) (p : process D) :
  loaded_before_calls false (new_events p (session E ops p)) = true /\
  init_behaviour (length (mem p)) (new_events p (construct E p).2) (construct E p).1 /\
  match (construct E p).1 with
  | Returns s =>
      lib s = Some (Cdll "TLCCS_64.dll") /\
      exists fx,
        new_events p (construct E p).2
        = [Ev_chdir "C:\Program Files\IVI Foundation\VISA\Win64\Bin" (Returns tt);
           Ev_LoadLibrary "TLCCS_64.dll" (Returns (Cdll "TLCCS_64.dll"));
           Ev_call "tlccs_init"
             [A_bytes "USB0::0x1313::0x8089::M00912624::RAW"; A_int 1; A_int 1;
              A_byref (ccs_handle s)] fx]
  | Raises _ => True
  end.
Proof.
  pose proof (construct_observed E p) as Hobs.
  split; [|split; [exact Hobs|]].
  - destruct (session_events E ops p)
      as (r0 & p0 & evs0 & evs1 & _ & Hb & _ & -> & Hcalls & Hstop & _).
    apply op_call_not_special in Hcalls as [_ Hcalls].
    destruct Hb as (r1 & Hb). destruct r1 as [[]|e1].
    + destruct Hb as (r2 & Hb). destruct r2 as [l|e2].
      * destruct Hb as (fx & _ & -> & _). cbn. exact Hcalls.
      * destruct Hb as (-> & ->). by rewrite (Hstop eq_refl).
    + destruct Hb as (-> & ->). by rewrite (Hstop eq_refl).
  - destruct Hobs as (r1 & Hb). destruct r1 as [[]|e1].
    + destruct Hb as (r2 & Hb). destruct r2 as [l|e2].
      * destruct Hb as (fx & -> & -> & ->).
        destruct (result fx); cbn; [|exact I].
        split; [reflexivity|]. by exists fx.
      * destruct Hb as (_ & ->). exact I.
    + destruct Hb as (_ & ->). exact I.
Qed.

(** ** C6: the scan buffers *)

(** C6, as the code has it.  Every call of [get_scan_data] creates its two
    buffers anew, of the fixed length 3648, and hands them to the caller.
    A later call, with any operations in between, works on two other
    buffers: the four are distinct objects, and what the first two hold
    is not touched. *)
Theorem scan_buffers_are_fresh {D : Type} (E : Outside D) (l : CDLL) (a : addr)
    (p : process D) (wl1 da1 : ndarray) (s1 : Spectrometer) (p1 : process D)
    (ops : list operation) (wl2 da2 : ndarray) (s3 : Spectrometer)
    (p3 : process D) :
  a < length (mem p) ->
  get_scan_data E (Self (Some l) a) p = (Returns (PyTuple2 wl1 da1), s1, p1) ->
  let p2 := (run_ops E ops s1 p1).2 in
  get_scan_data E s1 p2 = (Returns (PyTuple2 wl2 da2), s3, p3) ->
  NoDup [nd_base wl1; nd_base da1; nd_base wl2; nd_base da2] /\
  length (mem p) <= nd_base wl1 /\ length (mem p) <= nd_base da1 /\
  length (mem p2) <= nd_base wl2 /\ length (mem p2) <= nd_base da2 /\
  length (nd_contents (mem p1) wl1) = NUM_PIXELS /\
  length (nd_contents (mem p1) da1) = NUM_PIXELS /\
  length (nd_contents (mem p3) wl2) = NUM_PIXELS /\
  length (nd_contents (mem p3) da2) = NUM_PIXELS /\
  nd_contents (mem p3) wl1 = nd_contents (mem p1) wl1 /\
  nd_contents (mem p3) da1 = nd_contents (mem p1) da1.
Proof.
  intros Ha Hrun1 p2 Hrun2.
  destruct (get_scan_data_success E l a p _ _ _ Ha Hrun1)
    as (Hv1 & -> & _ & Hlen1 & xs1 & ys1 & Hw1 & Hxs1 & Hd1 & Hys1).
  injection Hv1 as -> ->.
  destruct (run_ops_frame E ops (Self (Some l) a) p1)
    as (rs & q & evs & Hops & (_ & Hle2 & Hkeep2 & _) & _).
  assert (Hq : p2 = q) by (unfold p2; by rewrite Hops). rewrite Hq in *. clear Hq p2.
  assert (Ha2 : a < length (mem q)) by lia.
  destruct (get_scan_data_success E l a q _ _ _ Ha2 Hrun2)
    as (Hv2 & _ & [evs3 (_ & _ & Hkeep3 & _)] & Hlen3 & xs2 & ys2 & Hw2 & Hxs2 & Hd2 & Hys2).
  injection Hv2 as -> ->.
  cbn [nd_base]. unfold nd_contents. cbn [nd_base].
  rewrite Hw1, Hd1, Hw2, Hd2.
  rewrite (Hkeep3 (length (mem p))) by lia.
  rewrite (Hkeep3 (S (length (mem p)))) by lia.
  rewrite (Hkeep2 (length (mem p))) by lia.
  rewrite (Hkeep2 (S (length (mem p)))) by lia.
  rewrite Hw1, Hd1.
  split.
  { repeat (apply NoDup_cons; split); try (apply NoDup_nil; exact I);
      rewrite ?elem_of_cons, elem_of_nil; lia. }
  repeat split; try done; lia.
Qed.

Lemma scan_buffers_are_fresh_on_bench :
  let run1 := get_scan_data (bench 0) bench_self (bench_ready 0) in
  let p2 := (run_ops (bench 0) [Op_start_scan] bench_self run1.2).2 in
  let run2 := get_scan_data (bench 0) bench_self p2 in
  let wl1 := Ndarray 1 [NUM_PIXELS] in
  let da1 := Ndarray 2 [NUM_PIXELS] in
  let wl2 := Ndarray 3 [NUM_PIXELS] in
  let da2 := Ndarray 4 [NUM_PIXELS] in
  0 < length (mem (bench_ready 0)) /\
  run1 = (Returns (PyTuple2 wl1 da1), bench_self, run1.2) /\
  run2 = (Returns (PyTuple2 wl2 da2), bench_self, run2.2) /\
  NoDup [nd_base wl1; nd_base da1; nd_base wl2; nd_base da2] /\
  length (mem (bench_ready 0)) <= nd_base wl1 /\
  length (mem (bench_ready 0)) <= nd_base da1 /\
  length (mem p2) <= nd_base wl2 /\ length (mem p2) <= nd_base da2 /\
  length (nd_contents (mem run1.2) wl1) = NUM_PIXELS /\
  length (nd_contents (mem run1.2) da1) = NUM_PIXELS /\
  length (nd_contents (mem run2.2) wl2) = NUM_PIXELS /\
  length (nd_contents (mem run2.2) da2) = NUM_PIXELS /\
  nd_contents (mem run2.2) wl1 = nd_contents (mem run1.2) wl1 /\
  nd_contents (mem run2.2) da1 = nd_contents (mem run1.2) da1.
Proof.
  intros run1 p2 run2 wl1 da1 wl2 da2.
  assert (H0 : 0 < length (mem (bench_ready 0))) by (vm_compute; lia).
  assert (H1 : run1 = (Returns (PyTuple2 wl1 da1), bench_self, run1.2))
    by (vm_compute; reflexivity).
  assert (H2 : run2 = (Returns (PyTuple2 wl2 da2), bench_self, run2.2))
    by (vm_compute; reflexivity).
  split; [exact H0|]. split; [exact H1|]. split; [exact H2|].
  exact (scan_buffers_are_fresh (bench 0) (Cdll "TLCCS_64.dll") 0 (bench_ready 0)
           wl1 da1 bench_self run1.2 [Op_start_scan] wl2 da2 bench_self run2.2
           H0 H1 H2).
Defined.

(** C6 as stated fails: two successive calls of [get_scan_data] do not
    return the same storage.  On the bench the second call returns the
    buffers at addresses 3 and 4, the first those at 1 and 2. *)
Lemma successive_scans_do_not_share_storage :
  ~ (forall (D : Type) (E : Outside D) (s : Spectrometer) (p : process D)
            (wl1 da1 : ndarray) (s1 : Spectrometer) (p1 : process D)
            (wl2 da2 : ndarray) (s2 : Spectrometer) (p2 : process D),
       get_scan_data E s p = (Returns (PyTuple2 wl1 da1), s1, p1) ->
       get_scan_data E s1 p1 = (Returns (PyTuple2 wl2 da2), s2, p2) ->
       nd_base wl2 = nd_base wl1 /\ nd_base da2 = nd_base da1).
Proof.
  intros H.
  set (run1 := get_scan_data (bench 0) bench_self (bench_ready 0)).
  set (run2 := get_scan_data (bench 0) bench_self run1.2).
  assert (H1 : run1 = (Returns (PyTuple2 (Ndarray 1 [NUM_PIXELS]) (Ndarray 2 [NUM_PIXELS])),
                       bench_self, run1.2)) by (vm_compute; reflexivity).
  assert (H2 : run2 = (Returns (PyTuple2 (Ndarray 3 [NUM_PIXELS]) (Ndarray 4 [NUM_PIXELS])),
                       bench_self, run2.2)) by (vm_compute; reflexivity).
  destruct (H nat (bench 0) bench_self (bench_ready 0) _ _ _ _ _ _ _ _ H1 H2) as [Hw _].
  discriminate Hw.
Qed.

(** ** C7: no retry, no state of its own *)

(** C7.  An operation addresses each of its driver functions at most once
    per invocation, in the order of its source, and stops at the first
    interaction that fails; so does the constructor with [os.chdir],
    [cdll.LoadLibrary] and [tlccs_init].  An operation assigns no
    attribute, and what it does depends on the two attributes, on the
    ctypes objects and on the outside world only: not on the interactions
    performed before, nor on the working directory. *)
Theorem no_retry_no_hidden_state {D : Type} (E : Outside D) :
  (forall o s p,
     let run := run_op E o s p in
     let evs := new_events p run.2 in
     map callee evs `prefix_of` op_callees o /\
     NoDup (map callee evs) /\
     no_retry evs = true /\
     run.1.2 = s) /\
  (forall p,
     let evs := new_events p (construct E p).2 in
     map callee evs `prefix_of` init_callees /\
     NoDup (map callee evs) /\
     no_retry evs = true) /\
  (forall o s c1 c2 t1 t2 m d,
     let run1 := run_op E o s (Process c1 m t1 d) in
     let run2 := run_op E o s (Process c2 m t2 d) in
     run1.1 = run2.1 /\
     mem run1.2 = mem run2.2 /\
     outside run1.2 = outside run2.2 /\
     new_events (Process c1 m t1 d) run1.2 = new_events (Process c2 m t2 d) run2.2).
Proof.
  split; [|split].
  - intros o s p run evs. subst evs run.
    destruct (run_op_frame E o s p) as (r & p' & evs & Hrun & Hp & _ & Hpre & Hnr).
    rewrite Hrun. cbn [fst snd]. rewrite (preserves_new_events _ _ _ Hp).
    split; [exact Hpre|]. split; [|by split].
    eapply prefix_NoDup_of; [exact Hpre|apply op_callees_NoDup].
  - intros p evs. subst evs.
    destruct (init_behaviour_callees _ _ _ (construct_observed E p)) as [Hpre Hnr].
    split; [exact Hpre|]. split; [|exact Hnr].
    eapply prefix_NoDup_of; [exact Hpre|apply init_callees_NoDup].
  - intros o s c1 c2 t1 t2 m d run1 run2. subst run1 run2.
    unfold new_events.
    destruct s as [[l|] a]; destruct o as [tm| | |]; unfold_py.
    all: repeat match goal with
         | |- context [c_double ?t] => destruct (c_double t)
         | |- context [dll_call ?E ?l ?s ?args ?h ?d] =>
             destruct (dll_call E l s args h d) as [[[?|?] ?] ?];
             cbn [result stores]
         end.
    all: case_class; cbn [fst snd];
         rewrite <- ?app_assoc, ?drop_app_length, ?drop_all;
         repeat split; reflexivity.
Qed.

(** ** C8: the device is hard-coded *)

(** C8.  [__init__] takes no argument, and whatever the process and the
    outside world, the only driver call of a construction is
    [tlccs_init(b"USB0::0x1313::0x8089::M00912624::RAW", 1, 1, byref(h))]
    where [h] is the [c_int] the construction has just created.  Two
    constructions pass the same resource string and the same two flags. *)
Theorem init_arguments_are_fixed {D1 D2 : Type} (E1 : Outside D1) (E2 : Outside D2)
    (p1 : process D1) (p2 : process D2)
    (sym1 sym2 : string) (args1 args2 : list carg) (fx1 fx2 : ffi_effect) :
  Ev_call sym1 args1 fx1 ∈ new_events p1 (construct E1 p1).2 ->
  Ev_call sym2 args2 fx2 ∈ new_events p2 (construct E2 p2).2 ->
  sym1 = "tlccs_init" /\ sym2 = "tlccs_init" /\
  args1 = [A_bytes "USB0::0x1313::0x8089::M00912624::RAW"; A_int 1; A_int 1;
           A_byref (length (mem p1))] /\
  args2 = [A_bytes "USB0::0x1313::0x8089::M00912624::RAW"; A_int 1; A_int 1;
           A_byref (length (mem p2))] /\
  take 3 args1 = take 3 args2.
Proof.
  assert (Hone : forall (D : Type) (E : Outside D) (p : process D) sym args fx,
             Ev_call sym args fx ∈ new_events p (construct E p).2 ->
             sym = "tlccs_init" /\
             args = [A_bytes "USB0::0x1313::0x8089::M00912624::RAW"; A_int 1; A_int 1;
                     A_byref (length (mem p))]).
  { intros D E p sym args fx Hin.
    destruct (construct_observed E p) as (r1 & Hb). destruct r1 as [[]|e1].
    - destruct Hb as (r2 & Hb). destruct r2 as [l|e2].
      + destruct Hb as (fx' & _ & Hevs & _). rewrite Hevs in Hin.
        rewrite !elem_of_cons, elem_of_nil in Hin.
        destruct Hin as [Hin|[Hin|[Hin|[]]]]; try discriminate Hin.
        injection Hin as -> -> _. by split.
      + destruct Hb as (Hevs & _). rewrite Hevs in Hin.
        rewrite !elem_of_cons, elem_of_nil in Hin.
        destruct Hin as [Hin|[Hin|[]]]; discriminate Hin.
    - destruct Hb as (Hevs & _). rewrite Hevs in Hin.
      rewrite !elem_of_cons, elem_of_nil in Hin.
      destruct Hin as [Hin|[]]; discriminate Hin. }
  intros H1 H2.
  destruct (Hone _ E1 p1 _ _ _ H1) as [-> ->].
  destruct (Hone _ E2 p2 _ _ _ H2) as [-> ->].
  repeat split.
Qed.

Lemma init_arguments_are_fixed_on_benches :
  let call (n : addr) (fx : ffi_effect) :=
    Ev_call "tlccs_init"
      [A_bytes "USB0::0x1313::0x8089::M00912624::RAW"; A_int 1; A_int 1; A_byref n] fx in
  let fx1 := FfiEffect (Returns 0%Z) [(0, C_int 7)] in
  let fx2 := FfiEffect
               (Raises (OSError "exception: access violation reading 0x0000000000000000"))
               [] in
  call 0 fx1 ∈ new_events (boot 0) (construct (bench 0) (boot 0)).2 /\
  call 1 fx2 ∈ new_events unplugged_ready (construct unplugged unplugged_ready).2 /\
  take 3 [A_bytes "USB0::0x1313::0x8089::M00912624::RAW"; A_int 1; A_int 1; A_byref 0]
  = take 3 [A_bytes "USB0::0x1313::0x8089::M00912624::RAW"; A_int 1; A_int 1; A_byref 1].
Proof.
  intros call fx1 fx2.
  assert (H1 : call 0 fx1 ∈ new_events (boot 0) (construct (bench 0) (boot 0)).2).
  { vm_compute. do 2 apply list_elem_of_further. apply list_elem_of_here. }
  assert (H2 : call 1 fx2 ∈ new_events unplugged_ready (construct unplugged unplugged_ready).2).
  { vm_compute. do 2 apply list_elem_of_further. apply list_elem_of_here. }
  split; [exact H1|]. split; [exact H2|].
  exact (proj2 (proj2 (proj2 (proj2
    (init_arguments_are_fixed (bench 0) unplugged (boot 0) unplugged_ready
       _ _ _ _ _ _ H1 H2))))).
Defined.

(** ** C9: the attributes after construction *)

(** C9.  An operation on an instance, returning or raising, leaves
    [self.lib] and [self.ccs_handle] as they were, and the [c_int] the
    handle refers to keeps its value: [close] included. *)
Theorem operations_keep_attributes {D : Type} (E : Outside D) (o : operation)
    (s : Spectrometer) (p : process D) :
  wf_self s p ->
  let run := run_op E o s p in
  run.1.2 = s /\
  lib run.1.2 = lib s /\
  ccs_handle run.1.2 = ccs_handle s /\
  mem run.2 !! ccs_handle s = mem p !! ccs_handle s /\
  c_int_value (mem run.2) (ccs_handle run.1.2) = c_int_value (mem p) (ccs_handle s) /\
  wf_self run.1.2 run.2.
Proof.
  intros [v Hv] run. subst run.
  destruct (run_op_frame E o s p) as (r & p' & evs & Hrun & (_ & _ & Hkeep & _) & _).
  rewrite Hrun. cbn [fst snd].
  assert (Hcell : mem p' !! ccs_handle s = mem p !! ccs_handle s).
  { apply Hkeep. by eapply lookup_lt_Some. }
  repeat split; try done.
  - unfold c_int_value. by rewrite Hcell.
  - exists v. by rewrite Hcell.
Qed.

Lemma close_keeps_attributes_on_bench :
  wf_self bench_self (bench_ready 0) /\
  (let run := run_op (bench 0) Op_close bench_self (bench_ready 0) in
   run.1.2 = bench_self /\
   lib run.1.2 = lib bench_self /\
   ccs_handle run.1.2 = ccs_handle bench_self /\
   mem run.2 !! ccs_handle bench_self = mem (bench_ready 0) !! ccs_handle bench_self /\
   c_int_value (mem run.2) (ccs_handle run.1.2)
   = c_int_value (mem (bench_ready 0)) (ccs_handle bench_self) /\
   wf_self run.1.2 run.2).
Proof.
  assert (H : wf_self bench_self (bench_ready 0)).
  { exists 7%Z. vm_compute. reflexivity. }
  split; [exact H|].
  exact (operations_keep_attributes (bench 0) Op_close bench_self (bench_ready 0) H).
Defined.

(** ** C10: the working directory *)

(** C10.  The first thing a construction does is
    [os.chdir(r"C:\Program Files\IVI Foundation\VISA\Win64\Bin")], before
    it loads the DLL.  When that succeeds the working directory of the
    process is this path from then on: neither the rest of the
    construction nor any operation changes directory again, so the
    previous directory is never restored. *)
Theorem chdir_is_never_undone {D : Type} (E : Outside D) (ops : list operation)
    (p : process D) :
  let p' := session E ops p in
  exists r rest,
    new_events p p'
    = Ev_chdir "C:\Program Files\IVI Foundation\VISA\Win64\Bin" r :: rest /\
    Forall (fun ev => is_chdir ev = false) rest /\
    cwd p' = match r with
             | Returns _ => "C:\Program Files\IVI Foundation\VISA\Win64\Bin"
             | Raises _ => cwd p
             end.
Proof.
  intros p'. subst p'.
  destruct (session_events E ops p)
    as (r0 & p0 & evs0 & evs1 & _ & Hb & _ & -> & Hcalls & Hstop & ->).
  apply op_call_not_special in Hcalls as [Hcalls _].
  destruct Hb as (r1 & Hb). exists r1. destruct r1 as [[]|e1].
  - destruct Hb as (r2 & Hb). destruct r2 as [l|e2].
    + destruct Hb as (fx & _ & -> & _). eexists. split; [reflexivity|].
      split; [|reflexivity]. by repeat constructor.
    + destruct Hb as (-> & _). eexists. split; [reflexivity|].
      split; [|reflexivity]. by repeat constructor.
  - destruct Hb as (-> & _). eexists. split; [reflexivity|].
    split; [|reflexivity]. exact Hcalls.
Qed.

(** * Further properties of the methods *)

(** ** Status codes do not matter *)

Ltac step_both Hcall E1 E2 :=
  match goal with
  | |- context [dll_call E1 ?l ?sym ?args ?h ?d] =>
      let H := fresh "H" in
      pose proof (Hcall l sym args h d) as H;
      destruct (dll_call E1 l sym args h d) as [[[?|?] ?] ?];
      destruct (dll_call E2 l sym args h d) as [[[?|?] ?] ?];
      cbn [fst snd result stores alike] in H;
      destruct H as (H & ? & ?); try contradiction; subst;
      cbn [result stores]
  end.

Lemma run_op_same_but_status {D : Type} (E1 E2 : Outside D) (o : operation)
    (s : Spectrometer) (p1 p2 : process D) :
  same_but_status E1 E2 ->
  same_state p1 p2 ->
  (run_op E1 o s p1).1 = (run_op E2 o s p2).1 /\
  same_state (run_op E1 o s p1).2 (run_op E2 o s p2).2.
Proof.
  intros (_ & _ & Hcall) (Hc & Hm & Hd).
  destruct p1 as [c m t1 d], p2 as [c2 m2 t2 d2]. cbn in Hc, Hm, Hd. subst c2 m2 d2.
  unfold same_state.
  destruct s as [[l|] a]; destruct o as [tm| | |]; unfold_py;
    try destruct (c_double tm);
    repeat step_both Hcall E1 E2;
    case_class; cbn [fst snd cwd mem outside]; auto.
Qed.

Lemma run_ops_same_but_status {D : Type} (E1 E2 : Outside D) (ops : list operation)
    (s : Spectrometer) (p1 p2 : process D) :
  same_but_status E1 E2 ->
  same_state p1 p2 ->
  (run_ops E1 ops s p1).1 = (run_ops E2 ops s p2).1 /\
  same_state (run_ops E1 ops s p1).2 (run_ops E2 ops s p2).2.
Proof.
  intros HE. revert p1 p2. induction ops as [|o ops IH]; intros p1 p2 Hp.
  - by split.
  - cbn [run_ops].
    destruct (run_op_same_but_status E1 E2 o s p1 p2 HE Hp) as [Hr Hq].
    destruct (run_op_frame E1 o s p1) as (r1 & q1 & e1 & Hrun1 & _).
    destruct (run_op_frame E2 o s p2) as (r2 & q2 & e2 & Hrun2 & _).
    rewrite Hrun1, Hrun2 in *. cbn [fst snd] in Hr, Hq.
    injection Hr as ->.
    destruct (IH q1 q2 Hq) as [Hrs Hqs].
    destruct (run_ops E1 ops s q1) as [[rs1 s1] q1'].
    destruct (run_ops E2 ops s q2) as [[rs2 s2] q2'].
    cbn [fst snd] in *. injection Hrs as -> ->. by split.
Qed.

Lemma construct_same_but_status {D : Type} (E1 E2 : Outside D) (p1 p2 : process D) :
  same_but_status E1 E2 ->
  same_state p1 p2 ->
  (construct E1 p1).1 = (construct E2 p2).1 /\
  same_state (construct E1 p1).2 (construct E2 p2).2.
Proof.
  intros (Hdir & Hload & Hcall) (Hc & Hm & Hd).
  destruct p1 as [c m t1 d], p2 as [c2 m2 t2 d2]. cbn in Hc, Hm, Hd. subst c2 m2 d2.
  unfold same_state. unfold_py.
  pose proof (Hdir "C:\Program Files\IVI Foundation\VISA\Win64\Bin" d) as H1.
  destruct (sys_chdir E1 _ d) as [[[]|e1] d1];
    destruct (sys_chdir E2 _ d) as [[[]|e1'] d1'];
    cbn [fst snd alike] in H1; destruct H1 as [H1 <-]; try contradiction.
  - pose proof (Hload "C:\Program Files\IVI Foundation\VISA\Win64\Bin"
                  "TLCCS_64.dll" d1) as H2.
    destruct (sys_LoadLibrary E1 _ _ d1) as [[[]|e2] d2];
      destruct (sys_LoadLibrary E2 _ _ d1) as [[[]|e2'] d2'];
      cbn [fst snd alike] in H2; destruct H2 as [H2 <-]; try contradiction.
    + step_both Hcall E1 E2; case_class; cbn [fst snd cwd mem outside]; auto.
    + subst. case_class; cbn [fst snd cwd mem outside]; auto.
  - subst. case_class; cbn [fst snd cwd mem outside]; auto.
Qed.

(** X1.  What the caller observes never depends on the status a driver
    function returns: in two outside worlds that differ in the returned
    status codes only, the constructor and every sequence of operations
    give the same results (returned values and raised exceptions), the
    same attributes, the same ctypes objects and the same working
    directory.  A failure the driver reports through its status is
    invisible to the caller of the wrapper. *)
Theorem status_is_invisible {D : Type} (E1 E2 : Outside D)
    (p1 p2 : process D) :
  same_but_status E1 E2 ->
  same_state p1 p2 ->
  (construct E1 p1).1 = (construct E2 p2).1 /\
  same_state (construct E1 p1).2 (construct E2 p2).2 /\
  (forall ops s,
     (run_ops E1 ops s p1).1 = (run_ops E2 ops s p2).1 /\
     same_state (run_ops E1 ops s p1).2 (run_ops E2 ops s p2).2) /\
  (forall ops,
     same_state (session E1 ops p1) (session E2 ops p2)).
Proof.
  intros HE Hp.
  destruct (construct_same_but_status E1 E2 p1 p2 HE Hp) as [Hr Hq].
  split; [exact Hr|]. split; [exact Hq|]. split.
  - intros ops s. by apply run_ops_same_but_status.
  - intros ops. unfold session.
    destruct (construct E1 p1) as [[s1|e1] q1];
      destruct (construct E2 p2) as [[s2|e2] q2];
      cbn [fst snd] in Hr, Hq; try discriminate Hr.
    + injection Hr as ->. by apply run_ops_same_but_status.
    + exact Hq.
Qed.

Lemma bench_same_but_status (st1 st2 : Z) : same_but_status (bench st1) (bench st2).
Proof.
  split; [|split].
  - intros path d. by split.
  - intros c name d. by split.
  - intros l sym args h d. cbn [dll_call bench]. unfold bench_call.
    destruct (String.eqb sym "tlccs_init");
      [|destruct (String.eqb sym "tlccs_getWavelengthData");
        [|destruct (String.eqb sym "tlccs_getScanData")]];
      cbn [fst snd result stores alike]; auto.
Qed.

Lemma status_is_invisible_on_benches :
  same_but_status (bench 0) (bench VI_ERROR_RSRC_NFOUND) /\
  same_state (boot 0) (boot 0) /\
  (construct (bench 0) (boot 0)).1 = (construct (bench VI_ERROR_RSRC_NFOUND) (boot 0)).1 /\
  same_state (construct (bench 0) (boot 0)).2
             (construct (bench VI_ERROR_RSRC_NFOUND) (boot 0)).2 /\
  (forall ops s,
     (run_ops (bench 0) ops s (boot 0)).1
     = (run_ops (bench VI_ERROR_RSRC_NFOUND) ops s (boot 0)).1 /\
     same_state (run_ops (bench 0) ops s (boot 0)).2
                (run_ops (bench VI_ERROR_RSRC_NFOUND) ops s (boot 0)).2) /\
  (forall ops,
     same_state (session (bench 0) ops (boot 0))
                (session (bench VI_ERROR_RSRC_NFOUND) ops (boot 0))).
Proof.
  assert (H1 : same_but_status (bench 0) (bench VI_ERROR_RSRC_NFOUND))
    by apply bench_same_but_status.
  assert (H2 : same_state (boot 0) (boot 0)) by (repeat split).
  split; [exact H1|]. split; [exact H2|].
  exact (status_is_invisible (bench 0) (bench VI_ERROR_RSRC_NFOUND)
           (boot 0) (boot 0) H1 H2).
Defined.

(** ** The handle *)

Lemma wrap_int32_range (z : Z) :
  (-2147483648 <= wrap_int32 z < 2147483648)%Z.
Proof.
  unfold wrap_int32.
  pose proof (Z.mod_pos_bound (z + 2147483648) 4294967296 eq_refl). lia.
Qed.

Lemma wrap_int32_small (z : Z) :
  (-2147483648 <= z < 2147483648)%Z -> wrap_int32 z = z.
Proof.
  intros H. unfold wrap_int32. rewrite Z.mod_small by lia. lia.
Qed.

Lemma int_after_range (a : addr) (sts : list (addr * cobj)) (v : Z) :
  (-2147483648 <= v < 2147483648)%Z ->
  (-2147483648 <= int_after a sts v < 2147483648)%Z.
Proof.
  unfold int_after. revert v.
  induction sts as [|[q o] sts IH]; intros v Hv; cbn [fold_left]; [exact Hv|].
  apply IH. cbn [fst snd]. case_bool_decide; [|exact Hv].
  destruct o; [apply wrap_int32_range|exact Hv].
Qed.

Lemma apply_stores_int (a : addr) (sts : list (addr * cobj)) (h : list cobj) (v : Z) :
  h !! a = Some (C_int v) ->
  apply_stores [a] sts h !! a = Some (C_int (int_after a sts v)).
Proof.
  unfold apply_stores, int_after. revert h v.
  induction sts as [|[q o] sts IH]; intros h v Hl; simpl; [done|].
  unfold apply_store at 2. simpl.
  case_bool_decide as Hin; case_bool_decide as Heq; subst.
  - rewrite Hl. apply IH.
    rewrite list_lookup_insert_eq by (by eapply lookup_lt_Some).
    by destruct o.
  - apply list_elem_of_singleton in Hin. contradiction.
  - exfalso. apply Hin. by apply list_elem_of_singleton.
  - by apply IH.
Qed.

(** A successful construction, with what [tlccs_init] left in the handle. *)
Lemma construct_handle {D : Type} (E : Outside D) (p : process D)
    (s : Spectrometer) (p' : process D) :
  construct E p = (Returns s, p') ->
  exists fx z,
    new_events p p'
    = [Ev_chdir "C:\Program Files\IVI Foundation\VISA\Win64\Bin" (Returns tt);
       Ev_LoadLibrary "TLCCS_64.dll" (Returns (Cdll "TLCCS_64.dll"));
       Ev_call "tlccs_init"
         [A_bytes "USB0::0x1313::0x8089::M00912624::RAW"; A_int 1; A_int 1;
          A_byref (ccs_handle s)] fx] /\
    result fx = Returns z /\
    ccs_handle s = length (mem p) /\
    mem p' !! ccs_handle s = Some (C_int (int_after (ccs_handle s) (stores fx) 0)).
Proof.
  destruct p as [c m t d0]. unfold new_events. unfold_py.
  destruct (sys_chdir E _ d0) as [[[]|e1] d1]; [|case_class; discriminate].
  destruct (sys_LoadLibrary E _ _ d1) as [[[]|e2] d2]; [|case_class; discriminate].
  destruct (dll_call E _ _ _ _ d2) as [[[z|e3] sts3] d3];
    [|cbn [result stores]; case_class; discriminate].
  cbn [result stores byref_targets flat_map app].
  intros H. injection H as <- <-. cbn [trace mem ccs_handle].
  exists (FfiEffect (Returns z) sts3), z.
  rewrite <- !app_assoc, drop_app_length. cbn [result stores].
  repeat split.
  apply (apply_stores_int (length m) sts3 (m ++ [c_int 0]) (wrap_int32 0)).
  by apply list_lookup_middle.
Qed.

(** X2.  When [Spectrometer()] returns, the handle of the instance holds
    the last value [tlccs_init] stored through [byref(self.ccs_handle)],
    reduced to a 32-bit C int, whatever status the function returned.  A
    driver that stored nothing leaves the handle at the 0 of
    [c_int(0)]: the construction succeeds all the same. *)
Theorem handle_is_what_init_stored {D : Type} (E : Outside D) (p : process D)
    (s : Spectrometer) (p' : process D) :
  construct E p = (Returns s, p') ->
  exists fx z,
    last (new_events p p')
    = Some (Ev_call "tlccs_init"
              [A_bytes "USB0::0x1313::0x8089::M00912624::RAW"; A_int 1; A_int 1;
               A_byref (ccs_handle s)] fx) /\
    result fx = Returns z /\
    c_int_value (mem p') (ccs_handle s) = int_after (ccs_handle s) (stores fx) 0 /\
    (-2147483648 <= c_int_value (mem p') (ccs_handle s) < 2147483648)%Z /\
    (stores fx = [] -> c_int_value (mem p') (ccs_handle s) = 0%Z) /\
    (forall w, stores fx = [(ccs_handle s, C_int w)] ->
               c_int_value (mem p') (ccs_handle s) = wrap_int32 w).
Proof.
  intros Hc.
  destruct (construct_handle E p s p' Hc) as (fx & z & Hevs & Hr & _ & Hcell).
  exists fx, z. rewrite Hevs. split; [reflexivity|]. split; [exact Hr|].
  unfold c_int_value. rewrite Hcell.
  split; [reflexivity|]. split; [by apply int_after_range|]. split.
  - by intros ->.
  - intros w ->. unfold int_after. cbn [fold_left fst snd].
    by rewrite bool_decide_true.
Qed.

Lemma handle_is_what_init_stored_when_idle :
  let run := construct (idle VI_ERROR_RSRC_NFOUND) (boot tt) in
  run = (Returns bench_self, run.2) /\
  exists fx z,
    last (new_events (boot tt) run.2)
    = Some (Ev_call "tlccs_init"
              [A_bytes "USB0::0x1313::0x8089::M00912624::RAW"; A_int 1; A_int 1;
               A_byref (ccs_handle bench_self)] fx) /\
    result fx = Returns z /\
    c_int_value (mem run.2) (ccs_handle bench_self)
    = int_after (ccs_handle bench_self) (stores fx) 0 /\
    (-2147483648 <= c_int_value (mem run.2) (ccs_handle bench_self) < 2147483648)%Z /\
    (stores fx = [] -> c_int_value (mem run.2) (ccs_handle bench_self) = 0%Z) /\
    (forall w, stores fx = [(ccs_handle bench_self, C_int w)] ->
               c_int_value (mem run.2) (ccs_handle bench_self) = wrap_int32 w).
Proof.
  intros run.
  assert (H : run = (Returns bench_self, run.2)) by (vm_compute; reflexivity).
  split; [exact H|].
  exact (handle_is_what_init_stored (idle VI_ERROR_RSRC_NFOUND) (boot tt)
           bench_self run.2 H).
Defined.

Example construct_when_idle :
  let run := construct (idle VI_ERROR_RSRC_NFOUND) (boot tt) in
  run.1 = Returns bench_self /\ c_int_value (mem run.2) 0 = 0%Z.
Proof. by vm_compute. Qed.

(** ** Sequences of operations *)

Lemma op_behaviour_calls (o : operation) (hv : Z) (n : addr) (evs : list event)
    (r : outcome pyvalue) :
  op_behaviour o hv n evs r ->
  List.filter not_scan_data (map callee evs) = first_callee o /\
  forallb (passes_handle hv) evs = true.
Proof.
  destruct o as [tm| | |]; unfold op_behaviour, one_call, first_callee.
  - destruct (c_double tm) as [dv|e].
    + intros (fx & -> & _). cbn. by rewrite Z.eqb_refl.
    + intros (-> & _). by cbn.
  - intros (fx & -> & _). cbn. by rewrite Z.eqb_refl.
  - intros (fx1 & Hb). destruct (result fx1).
    + destruct Hb as (fx2 & -> & _). cbn. by rewrite Z.eqb_refl.
    + destruct Hb as (-> & _). cbn. by rewrite Z.eqb_refl.
  - intros (fx & -> & _). cbn. by rewrite Z.eqb_refl.
Qed.

Lemma preserves_handle {D : Type} (p p' : process D) (evs : list event) (a : addr) :
  a < length (mem p) -> preserves p p' evs ->
  a < length (mem p') /\ c_int_value (mem p') a = c_int_value (mem p) a.
Proof.
  intros Ha (_ & Hle & Hkeep & _). split; [lia|].
  unfold c_int_value. by rewrite Hkeep.
Qed.

(** A sequence of operations on a live instance: each operation addresses
    its first driver function, and every call carries the handle. *)
Lemma run_ops_live {D : Type} (E : Outside D) (ops : list operation)
    (l : CDLL) (a : addr) (p : process D) :
  a < length (mem p) ->
  exists rs p' evs,
    run_ops E ops (Self (Some l) a) p = (rs, Self (Some l) a, p') /\
    preserves p p' evs /\
    length rs = length ops /\
    List.filter not_scan_data (map callee evs) = flat_map first_callee ops /\
    forallb (passes_handle (c_int_value (mem p) a)) evs = true.
Proof.
  revert p. induction ops as [|o ops IH]; intros p Ha.
  - exists [], p, []. split; [reflexivity|]. split; [apply preserves_refl|].
    by repeat split.
  - destruct (run_op_behaviour E o l a p Ha) as (r & p1 & e1 & Hrun & Hp1 & Hb).
    destruct (preserves_handle _ _ _ a Ha Hp1) as [Ha1 Hv1].
    destruct (IH p1 Ha1) as (rs & p2 & e2 & Hruns & Hp2 & Hlen & Hf & Hh).
    destruct (op_behaviour_calls _ _ _ _ _ Hb) as [Hf1 Hh1].
    exists (r :: rs), p2, (e1 ++ e2).
    split; [cbn [run_ops]; by rewrite Hrun, Hruns|].
    split; [by eapply preserves_trans|].
    split; [cbn; by rewrite Hlen|].
    split.
    + rewrite map_app, List.filter_app, Hf1, Hf. reflexivity.
    + rewrite forallb_app, Hh1. by rewrite <- Hv1.
Qed.

(** X3.  On a constructed instance no operation is ever skipped: in any
    sequence of operations, each one addresses its first driver function
    ([tlccs_getWavelengthData] for [get_scan_data]), in order, whatever
    happened before: earlier failures and an earlier [close] change
    nothing, and [get_scan_data] fetches the wavelengths anew every time.
    Only [set_integration_time] with an argument that is no real number
    addresses nothing. *)
Theorem every_operation_reaches_the_driver {D : Type} (E : Outside D)
    (p : process D) (s : Spectrometer) (p0 : process D) (ops : list operation) :
  construct E p = (Returns s, p0) ->
  List.filter not_scan_data
    (map callee (new_events p0 (run_ops E ops s p0).2))
  = flat_map first_callee ops.
Proof.
  intros Hc.
  destruct (constructed_instance_is_live E p s p0 Hc) as (-> & Ha & _).
  cbn [ccs_handle] in Ha.
  destruct (run_ops_live E ops (Cdll "TLCCS_64.dll") (length (mem p)) p0 Ha)
    as (rs & p' & evs & Hrun & Hp & Hlen & Hf & _).
  rewrite Hrun. cbn [fst snd]. by rewrite (preserves_new_events _ _ _ Hp).
Qed.

Lemma every_operation_reaches_the_driver_on_bench :
  let ops := [Op_start_scan; Op_close; Op_get_scan_data; Op_close;
              Op_set_integration_time (PyStr "0.1"); Op_start_scan] in
  construct (bench 0) (boot 0) = (Returns bench_self, bench_ready 0) /\
  List.filter not_scan_data
    (map callee (new_events (bench_ready 0)
                   (run_ops (bench 0) ops bench_self (bench_ready 0)).2))
  = flat_map first_callee ops.
Proof.
  intros ops.
  assert (H : construct (bench 0) (boot 0) = (Returns bench_self, bench_ready 0))
    by (vm_compute; reflexivity).
  split; [exact H|].
  exact (every_operation_reaches_the_driver (bench 0) (boot 0) bench_self
           (bench_ready 0) ops H).
Defined.

(** X4.  Every driver call an operation makes on a constructed instance
    passes, as its first argument and by value, the handle as the
    construction left it: the same value in every call of every sequence
    of operations, also after [close] and after failures. *)
Theorem every_call_passes_the_handle {D : Type} (E : Outside D)
    (p : process D) (s : Spectrometer) (p0 : process D) (ops : list operation) :
  construct E p = (Returns s, p0) ->
  forallb (passes_handle (c_int_value (mem p0) (ccs_handle s)))
          (new_events p0 (run_ops E ops s p0).2) = true /\
  c_int_value (mem (run_ops E ops s p0).2) (ccs_handle s)
  = c_int_value (mem p0) (ccs_handle s) /\
  (run_ops E ops s p0).1.2 = s.
Proof.
  intros Hc.
  destruct (constructed_instance_is_live E p s p0 Hc) as (-> & Ha & _).
  cbn [ccs_handle] in *.
  destruct (run_ops_live E ops (Cdll "TLCCS_64.dll") (length (mem p)) p0 Ha)
    as (rs & p' & evs & Hrun & Hp & _ & _ & Hh).
  rewrite Hrun. cbn [fst snd]. rewrite (preserves_new_events _ _ _ Hp).
  split; [exact Hh|]. split; [|reflexivity].
  by destruct (preserves_handle _ _ _ _ Ha Hp).
Qed.

Lemma every_call_passes_the_handle_on_bench :
  let ops := [Op_start_scan; Op_close; Op_get_scan_data; Op_close; Op_start_scan] in
  construct (bench 0) (boot 0) = (Returns bench_self, bench_ready 0) /\
  forallb (passes_handle (c_int_value (mem (bench_ready 0)) (ccs_handle bench_self)))
          (new_events (bench_ready 0)
             (run_ops (bench 0) ops bench_self (bench_ready 0)).2) = true /\
  c_int_value (mem (run_ops (bench 0) ops bench_self (bench_ready 0)).2)
              (ccs_handle bench_self)
  = c_int_value (mem (bench_ready 0)) (ccs_handle bench_self) /\
  (run_ops (bench 0) ops bench_self (bench_ready 0)).1.2 = bench_self.
Proof.
  intros ops.
  assert (H : construct (bench 0) (boot 0) = (Returns bench_self, bench_ready 0))
    by (vm_compute; reflexivity).
  split; [exact H|].
  exact (every_call_passes_the_handle (bench 0) (boot 0) bench_self
           (bench_ready 0) ops H).
Defined.

(** ** Several instances *)

(** X5.  Instances do not share their handle.  A second [Spectrometer()],
    successful or not, creates a [c_int] of its own and leaves the handle
    of an existing instance as it was; so does every operation on the
    second instance. *)
Theorem instances_are_isolated {D : Type} (E : Outside D) (p : process D)
    (s1 : Spectrometer) (p1 : process D) (ops1 ops2 : list operation) :
  construct E p = (Returns s1, p1) ->
  let p2 := (run_ops E ops1 s1 p1).2 in
  let hv := c_int_value (mem p1) (ccs_handle s1) in
  wf_self s1 (construct E p2).2 /\
  c_int_value (mem (construct E p2).2) (ccs_handle s1) = hv /\
  (forall s2,
     (construct E p2).1 = Returns s2 ->
     ccs_handle s2 <> ccs_handle s1 /\
     wf_self s1 (run_ops E ops2 s2 (construct E p2).2).2 /\
     c_int_value (mem (run_ops E ops2 s2 (construct E p2).2).2) (ccs_handle s1) = hv).
Proof.
  intros Hc p2 hv.
  destruct (constructed_instance_is_live E p s1 p1 Hc) as (Hs1 & Ha1 & [v Hv]).
  destruct (run_ops_frame E ops1 s1 p1)
    as (rs & q2 & e2 & Hrun2 & (_ & Hle2 & Hkeep2 & _) & _).
  assert (Hq : p2 = q2) by (unfold p2; by rewrite Hrun2).
  rewrite Hq in *. clear Hq p2.
  destruct (construct_behaviour E q2)
    as (r3 & p3 & e3 & Hc3 & _ & Hb3 & Hlen3 & Hkeep3 & _).
  rewrite Hc3. cbn [fst snd].
  assert (Hcell3 : mem p3 !! ccs_handle s1 = Some (C_int v)).
  { rewrite Hkeep3 by lia. rewrite Hkeep2 by lia. exact Hv. }
  assert (Hhv : hv = v) by (unfold hv, c_int_value; by rewrite Hv).
  split; [by exists v|]. split; [unfold c_int_value; by rewrite Hcell3|].
  intros s2 ->.
  destruct (constructed_instance_is_live E q2 s2 p3 Hc3) as (-> & _ & _).
  cbn [ccs_handle]. split; [lia|].
  destruct (run_ops_frame E ops2 (Self (Some (Cdll "TLCCS_64.dll")) (length (mem q2))) p3)
    as (rs4 & p4 & e4 & Hrun4 & (_ & _ & Hkeep4 & _) & _).
  rewrite Hrun4. cbn [snd].
  assert (Hcell4 : mem p4 !! ccs_handle s1 = Some (C_int v)).
  { rewrite Hkeep4 by lia. exact Hcell3. }
  split; [by exists v|]. unfold c_int_value. by rewrite Hcell4.
Qed.

Lemma instances_are_isolated_on_bench :
  let p2 := (run_ops (bench 0) [Op_get_scan_data] bench_self (bench_ready 0)).2 in
  let hv := c_int_value (mem (bench_ready 0)) (ccs_handle bench_self) in
  construct (bench 0) (boot 0) = (Returns bench_self, bench_ready 0) /\
  wf_self bench_self (construct (bench 0) p2).2 /\
  c_int_value (mem (construct (bench 0) p2).2) (ccs_handle bench_self) = hv /\
  (forall s2,
     (construct (bench 0) p2).1 = Returns s2 ->
     ccs_handle s2 <> ccs_handle bench_self /\
     wf_self bench_self (run_ops (bench 0) [Op_close] s2 (construct (bench 0) p2).2).2 /\
     c_int_value (mem (run_ops (bench 0) [Op_close] s2 (construct (bench 0) p2).2).2)
                 (ccs_handle bench_self) = hv).
Proof.
  intros p2 hv.
  assert (H : construct (bench 0) (boot 0) = (Returns bench_self, bench_ready 0))
    by (vm_compute; reflexivity).
  split; [exact H|].
  exact (instances_are_isolated (bench 0) (boot 0) bench_self (bench_ready 0)
           [Op_get_scan_data] [Op_close] H).
Defined.

(** ** What the driver did not write *)

Lemma overwrite_replicate_short (n : nat) (z : double) (ys : list double) :
  length ys <= n ->
  overwrite (replicate n z) ys = ys ++ replicate (n - length ys) z.
Proof.
  intros H. unfold overwrite. rewrite length_replicate, drop_replicate.
  apply take_ge. rewrite length_app, length_replicate. lia.
Qed.

Lemma buffer_after_untouched (a : addr) (sts : list (addr * cobj)) (xs : list double) :
  Forall (fun st => st.1 <> a) sts -> buffer_after a sts xs = xs.
Proof.
  unfold buffer_after. induction 1 as [|st sts Hst _ IH]; [done|].
  cbn [fold_left]. by rewrite bool_decide_false.
Qed.

(** X6.  The buffers of [get_scan_data] start as 3648 zeros, and the
    method returns them whatever the driver did with them: where a driver
    call stored nothing the caller reads 0.0, with no error.  If the call
    stored a shorter run of doubles, the array is this run followed by
    zeros. *)
Theorem unwritten_elements_read_zero {D : Type} (E : Outside D) (l : CDLL)
    (a : addr) (p : process D) (wl da : ndarray) (s' : Spectrometer)
    (p' : process D) :
  a < length (mem p) ->
  get_scan_data E (Self (Some l) a) p = (Returns (PyTuple2 wl da), s', p') ->
  exists args1 fx1 args2 fx2,
    new_events p p' = [Ev_call "tlccs_getWavelengthData" args1 fx1;
                       Ev_call "tlccs_getScanData" args2 fx2] /\
    (Forall (fun st => st.1 <> nd_base wl) (stores fx1) ->
     nd_contents (mem p') wl = replicate NUM_PIXELS dzero) /\
    (Forall (fun st => st.1 <> nd_base da) (stores fx2) ->
     nd_contents (mem p') da = replicate NUM_PIXELS dzero) /\
    (forall ys, stores fx1 = [(nd_base wl, C_double_array ys)] ->
                length ys <= NUM_PIXELS ->
                nd_contents (mem p') wl = ys ++ replicate (NUM_PIXELS - length ys) dzero) /\
    (forall ys, stores fx2 = [(nd_base da, C_double_array ys)] ->
                length ys <= NUM_PIXELS ->
                nd_contents (mem p') da = ys ++ replicate (NUM_PIXELS - length ys) dzero).
Proof.
  intros Ha Hrun.
  destruct (get_scan_data_run E l a p Ha)
    as (r & p'' & evs & Hrun' & Hp & Hb & Hmem).
  rewrite Hrun in Hrun'. injection Hrun' as <- _ <-.
  destruct (Hmem eq_refl) as (fx1 & fx2 & args1 & args2 & Hevs & Hlen & Hw & Hd).
  destruct Hb as (gx1 & Hb). destruct (result gx1) as [z1|e1]; [|by destruct Hb].
  destruct Hb as (gx2 & _ & Hv).
  destruct (result gx2) as [z2|e2]; [|discriminate Hv].
  injection Hv as -> ->.
  exists args1, fx1, args2, fx2.
  split; [rewrite (preserves_new_events _ _ _ Hp); exact Hevs|].
  unfold nd_contents. cbn [nd_base]. rewrite Hw, Hd.
  split; [by apply buffer_after_untouched|].
  split; [by apply buffer_after_untouched|].
  split; intros ys -> Hys; unfold buffer_after; cbn [fold_left fst snd];
    rewrite bool_decide_true by done; by apply overwrite_replicate_short.
Qed.

Lemma unwritten_elements_read_zero_when_idle :
  let p := (construct (idle VI_ERROR_RSRC_NFOUND) (boot tt)).2 in
  let run := get_scan_data (idle VI_ERROR_RSRC_NFOUND) bench_self p in
  let wl := Ndarray 1 [NUM_PIXELS] in
  let da := Ndarray 2 [NUM_PIXELS] in
  0 < length (mem p) /\
  run = (Returns (PyTuple2 wl da), bench_self, run.2) /\
  exists args1 fx1 args2 fx2,
    new_events p run.2 = [Ev_call "tlccs_getWavelengthData" args1 fx1;
                          Ev_call "tlccs_getScanData" args2 fx2] /\
    (Forall (fun st => st.1 <> nd_base wl) (stores fx1) ->
     nd_contents (mem run.2) wl = replicate NUM_PIXELS dzero) /\
    (Forall (fun st => st.1 <> nd_base da) (stores fx2) ->
     nd_contents (mem run.2) da = replicate NUM_PIXELS dzero) /\
    (forall ys, stores fx1 = [(nd_base wl, C_double_array ys)] ->
                length ys <= NUM_PIXELS ->
                nd_contents (mem run.2) wl = ys ++ replicate (NUM_PIXELS - length ys) dzero) /\
    (forall ys, stores fx2 = [(nd_base da, C_double_array ys)] ->
                length ys <= NUM_PIXELS ->
                nd_contents (mem run.2) da = ys ++ replicate (NUM_PIXELS - length ys) dzero).
Proof.
  intros p run wl da.
  assert (H1 : 0 < length (mem p)) by (vm_compute; lia).
  assert (H2 : run = (Returns (PyTuple2 wl da), bench_self, run.2))
    by (vm_compute; reflexivity).
  split; [exact H1|]. split; [exact H2|].
  exact (unwritten_elements_read_zero (idle VI_ERROR_RSRC_NFOUND)
           (Cdll "TLCCS_64.dll") 0 p wl da bench_self run.2 H1 H2).
Defined.

Example scan_when_idle :
  let p := (construct (idle VI_ERROR_RSRC_NFOUND) (boot tt)).2 in
  let run := get_scan_data (idle VI_ERROR_RSRC_NFOUND) bench_self p in
  run.1.1 = Returns (PyTuple2 (Ndarray 1 [3648]) (Ndarray 2 [3648])) /\
  nd_contents (mem run.2) (Ndarray 1 [3648]) = replicate 3648 dzero /\
  nd_contents (mem run.2) (Ndarray 2 [3648]) = replicate 3648 dzero.
Proof. vm_compute. repeat split. Qed.
